(** * The SDN smart-routing model trainer ([_train_ml_model.py])

    A shallow embedding of [SDNMLTrainer] and of [main].  The trainer
    object, the files it reads and writes and the lines it prints are
    threaded through a state-and-exception monad; the estimators, the
    splitter and the text renderers of the numeric libraries are the
    fields of the class [Library].

    - Python floats are exact rationals ([Q]); a label is a number too.
    - A pickled object is stored as the object itself: [joblib.load]
      gives back what [joblib.dump] received.
    - [stdout] holds one string per call of [print]. *)

From Stdlib Require Import QArith Qabs Qround.
From stdpp Require Import gmap strings list pretty sorting.

Set Default Proof Using "Type".

(** ** Exceptions

    The classes the script can meet.  [SchemaMismatch] is the error the
    specification asks for when a column is missing; it is raised by
    [preprocess_data_spec] only, never by the trainer. *)

Inductive exn :=
| KeyError (keys : list string)
| AttributeError (attr : string)
| IndexError
| ValueError (what : string)
| TypeError (what : string)
| NotFittedError
| FileNotFoundError (path : string)
| ParserError (path : string)
| UnpicklingError (path : string)
| SchemaMismatch (missing : list string).

Inductive result (A : Type) :=
| Ok (a : A)
| Raise (e : exn).
Arguments Ok {A} a.
Arguments Raise {A} e.

(** ** Text helpers *)

Definition nl : string := String (Ascii.ascii_of_nat 10) EmptyString.

Fixpoint str_mul (s : string) (n : nat) : string :=
  match n with
  | O => EmptyString
  | S k => s +:+ str_mul s k
  end.

Fixpoint join (sep : string) (l : list string) : string :=
  match l with
  | [] => EmptyString
  | [s] => s
  | s :: rest => s +:+ sep +:+ join sep rest
  end.

Definition quote (s : string) : string := "'" +:+ s +:+ "'".

Definition str_list (l : list string) : string :=
  "[" +:+ join ", " (map quote l) +:+ "]".

(** [str(e)] for the exceptions above; the wording of the libraries'
    messages is kept schematic. *)
Definition str_exn (e : exn) : string :=
  match e with
  | KeyError [k] => quote k
  | KeyError ks => quote (str_list ks +:+ " not in index")
  | AttributeError a => "object has no attribute " +:+ quote a
  | IndexError => "index out of range"
  | ValueError w => w
  | TypeError w => w
  | NotFittedError => "This StandardScaler instance is not fitted yet."
  | FileNotFoundError p => "[Errno 2] No such file or directory: " +:+ quote p
  | ParserError p => "Error tokenizing data: " +:+ p
  | UnpicklingError p => "invalid load key: " +:+ p
  | SchemaMismatch ks => "schema mismatch: missing " +:+ str_list ks
  end.

(** ** Tables *)

Record DataFrame := {
  columns : list string;
  rows : list (list Q)
}.

Definition len (df : DataFrame) : nat := length (rows df).

Definition head (df : DataFrame) : DataFrame :=
  {| columns := columns df; rows := take 5 (rows df) |}.

Fixpoint index_of (c : string) (cols : list string) : option nat :=
  match cols with
  | [] => None
  | c' :: rest => if String.eqb c c' then Some O else S <$> index_of c rest
  end.

Definition has_column (df : DataFrame) (c : string) : bool :=
  match index_of c (columns df) with Some _ => true | None => false end.

Definition cell (r : list Q) (i : nat) : Q := nth i r 0%Q.

(** The columns of [wanted] that the table lacks, in the order asked. *)
Definition missing_columns (df : DataFrame) (wanted : list string) : list string :=
  filter (λ c, has_column df c = false) wanted.

(** [df[cols]] with a list of labels. *)
Definition getitem_list (df : DataFrame) (cols : list string) : result DataFrame :=
  match missing_columns df cols with
  | [] =>
      let idx := omap (λ c, index_of c (columns df)) cols in
      Ok {| columns := cols; rows := map (λ r, map (cell r) idx) (rows df) |}
  | miss => Raise (KeyError miss)
  end.

(** [df[col]] with one label. *)
Definition getitem (df : DataFrame) (col : string) : result (list Q) :=
  match index_of col (columns df) with
  | Some i => Ok (map (λ r, cell r i) (rows df))
  | None => Raise (KeyError [col])
  end.

Fixpoint unique (l : list Q) : list Q :=
  match l with
  | [] => []
  | x :: rest => x :: filter (λ y, Qeq_bool x y = false) (unique rest)
  end.

Definition nunique (y : list Q) : nat := length (unique y).

Definition shape2 (X : DataFrame) : string :=
  "(" +:+ pretty (len X) +:+ ", " +:+ pretty (length (columns X)) +:+ ")".

Definition shape1 (y : list Q) : string :=
  "(" +:+ pretty (length y) +:+ ",)".

(** ** Figures *)

Inductive Figure :=
| BarChart (title xlabel ylabel : string)
           (ticks : list string) (heights : list Q) (annotations : list string)
| Heatmap (title xlabel ylabel : string) (cells : list (list nat)).

(** ** Estimators *)

Inductive Estimator :=
| RandomForestClassifier (n_estimators random_state : nat)
| KNeighborsClassifier (n_neighbors : nat)
| DecisionTreeClassifier (max_depth random_state : nat)
| SVC (kernel : string) (random_state : nat).

(** The classes that carry [feature_importances_]. *)
Definition has_importances (e : Estimator) : bool :=
  match e with
  | RandomForestClassifier _ _ | DecisionTreeClassifier _ _ => true
  | KNeighborsClassifier _ | SVC _ _ => false
  end.

(** What the numeric libraries compute.  [None] stands for an exception
    raised inside the library. *)
Class Library := {
  Fitted : Type;
  lib_fit : Estimator → list (list Q) → list Q → option Fitted;
  lib_predict : Estimator → Fitted → list (list Q) → option (list Q);
  lib_importances : Estimator → Fitted → list Q;
  lib_train_test_split :
    list (list Q) → list Q → ∀ (test_size : Q) (random_state : nat) (stratify : list Q),
    option (list (list Q) * list (list Q) * list Q * list Q);
  lib_sqrt : Q → Q;
  classification_report : list Q → list Q → string;
  confusion_matrix : list Q → list Q → list (list nat);
  format_float : nat → Q → string;
  str_number : Q → string;
  frame_info : DataFrame → string;
  frame_repr : DataFrame → string
}.

Section Trainer.
Context `{Library}.

(** ** Objects and the world *)

(** A fitted estimator object: its class with hyper-parameters and the
    state the library's [fit] left in it. *)
Record Model := {
  estimator : Estimator;
  fitted : Fitted
}.

Inductive StandardScaler :=
| Unfitted
| FittedScaler (mean_ var_ scale_ : list Q).

Record ModelResult := {
  r_model : Model;
  r_accuracy : Q;
  r_predictions : list Q
}.

(** The values [save_model] puts in the pickled dictionary. *)
Inductive Value :=
| VModel (m : Model)
| VScaler (s : StandardScaler)
| VStr (s : string)
| VFloat (q : Q).

Inductive File :=
| Csv (df : DataFrame)
| Pickle (d : gmap string Value)
| Png (fig : Figure).

(** [best_model] is [None] or a fitted estimator, which is truthy in
    the tests [if self.best_model].  [best_model_name] is not assigned
    by [__init__]: [None] is the missing attribute, and reading it
    raises [AttributeError]. *)
Record SDNMLTrainer := {
  dataset_path : string;
  models : list (string * ModelResult);
  scaler : StandardScaler;
  best_model : option Model;
  best_accuracy : Q;
  best_model_name : option string
}.

Definition init (path : string) : SDNMLTrainer :=
  {| dataset_path := path;
     models := [];
     scaler := Unfitted;
     best_model := None;
     best_accuracy := 0%Q;
     best_model_name := None |}.

Record World := {
  self : SDNMLTrainer;
  fs : gmap string File;
  stdout : list string
}.

(** ** The monad of methods *)

Definition M (A : Type) : Type := World → result A * World.

#[export] Instance M_ret : MRet M := λ A a w, (Ok a, w).
#[export] Instance M_bind : MBind M := λ A B f m w,
  match m w with
  | (Ok a, w') => f a w'
  | (Raise e, w') => (Raise e, w')
  end.

Definition raise {A} (e : exn) : M A := λ w, (Raise e, w).

Definition lift {A} (r : result A) : M A := λ w, (r, w).

Definition from_lib {A} (what : string) (o : option A) : M A :=
  match o with
  | Some a => mret a
  | None => raise (ValueError what)
  end.

(** [try: body except Exception as e: handler e]; what the body did
    before it raised stays done. *)
Definition try_except {A} (body : M A) (handler : exn → M A) : M A := λ w,
  match body w with
  | (Ok a, w') => (Ok a, w')
  | (Raise e, w') => handler e w'
  end.

Definition get_self : M SDNMLTrainer := λ w, (Ok (self w), w).

Definition set_self (t : SDNMLTrainer) : M unit := λ w,
  (Ok tt, {| self := t; fs := fs w; stdout := stdout w |}).

Definition print (line : string) : M unit := λ w,
  (Ok tt, {| self := self w; fs := fs w; stdout := stdout w ++ [line] |}).

(** [joblib.dump] and [savefig] on a path.  Every path is taken to be
    writable: a write that the operating system refuses (an empty name,
    a missing directory) is outside the embedding, so what is stated of
    a write is stated of a call that returns. *)
Definition write_file (path : string) (f : File) : M unit := λ w,
  (Ok tt, {| self := self w; fs := <[path := f]> (fs w); stdout := stdout w |}).

Definition read_file (path : string) : M File := λ w,
  match fs w !! path with
  | Some f => (Ok f, w)
  | None => (Raise (FileNotFoundError path), w)
  end.

(** Attribute assignments on [self]. *)
Definition set_models (v : list (string * ModelResult)) : M unit :=
  t ← get_self;
  set_self {| dataset_path := dataset_path t; models := v; scaler := scaler t;
              best_model := best_model t; best_accuracy := best_accuracy t;
              best_model_name := best_model_name t |}.

Definition set_scaler (v : StandardScaler) : M unit :=
  t ← get_self;
  set_self {| dataset_path := dataset_path t; models := models t; scaler := v;
              best_model := best_model t; best_accuracy := best_accuracy t;
              best_model_name := best_model_name t |}.

Definition set_best_model (v : option Model) : M unit :=
  t ← get_self;
  set_self {| dataset_path := dataset_path t; models := models t; scaler := scaler t;
              best_model := v; best_accuracy := best_accuracy t;
              best_model_name := best_model_name t |}.

Definition set_best_accuracy (v : Q) : M unit :=
  t ← get_self;
  set_self {| dataset_path := dataset_path t; models := models t; scaler := scaler t;
              best_model := best_model t; best_accuracy := v;
              best_model_name := best_model_name t |}.

Definition set_best_model_name (v : string) : M unit :=
  t ← get_self;
  set_self {| dataset_path := dataset_path t; models := models t; scaler := scaler t;
              best_model := best_model t; best_accuracy := best_accuracy t;
              best_model_name := Some v |}.

(** [self.best_model_name] read as an attribute. *)
Definition get_best_model_name : M string :=
  t ← get_self;
  match best_model_name t with
  | Some n => mret n
  | None => raise (AttributeError "best_model_name")
  end.

(** [for x in xs: acc = body acc x]. *)
Fixpoint for_each {A B} (xs : list A) (acc : B) (body : B → A → M B) : M B :=
  match xs with
  | [] => mret acc
  | x :: rest => acc' ← body acc x; for_each rest acc' body
  end.

(** ** [StandardScaler] *)

Definition Qsum (xs : list Q) : Q := foldr Qplus 0%Q xs.

(** Floats are kept in lowest terms ([Qred]), as one float has one
    representation. *)
Definition mean (xs : list Q) : Q :=
  Qred (Qsum xs / inject_Z (Z.of_nat (length xs))).

Definition variance (xs : list Q) : Q :=
  let m := mean xs in mean (map (λ x, ((x - m) * (x - m))%Q) xs).

Definition column (j : nat) (X : list (list Q)) : list Q :=
  map (λ r, cell r j) X.

(** A constant column is left unscaled. *)
Definition scale_of (var : Q) : Q :=
  if Qeq_bool var 0 then 1%Q else lib_sqrt var.

Definition StandardScaler_fit (X : list (list Q)) : result StandardScaler :=
  match X with
  | [] => Raise (ValueError "Found array with 0 sample(s)")
  | r :: _ =>
      let cols := map (λ j, column j X) (seq 0 (length r)) in
      let var := map variance cols in
      Ok (FittedScaler (map mean cols) var (map scale_of var))
  end.

Fixpoint scale_row (mu sc r : list Q) : list Q :=
  match mu, sc, r with
  | m :: mu', s :: sc', x :: r' => Qred ((x - m) / s) :: scale_row mu' sc' r'
  | _, _, _ => []
  end.

Definition StandardScaler_transform (s : StandardScaler) (X : list (list Q))
  : result (list (list Q)) :=
  match s with
  | Unfitted => Raise NotFittedError
  | FittedScaler mu _ sc =>
      match X with
      | [] => Raise (ValueError "Found array with 0 sample(s)")
      | _ =>
          if forallb (λ r, Nat.eqb (length r) (length mu)) X
          then Ok (map (scale_row mu sc) X)
          else Raise (ValueError "X has a different number of features")
      end
  end.

(** [self.scaler.fit_transform(X)]: the scaler object is refitted in
    place, then applied. *)
Definition scaler_fit_transform (X : list (list Q)) : M (list (list Q)) :=
  s ← lift (StandardScaler_fit X);
  set_scaler s;;
  lift (StandardScaler_transform s X).

(** [self.scaler.transform(X)]: reads the scaler, assigns nothing. *)
Definition scaler_transform (X : list (list Q)) : M (list (list Q)) :=
  t ← get_self;
  lift (StandardScaler_transform (scaler t) X).

(** ** [load_data] *)

Definition read_csv (path : string) : M DataFrame :=
  f ← read_file path;
  match f with
  | Csv df => mret df
  | _ => raise (ParserError path)
  end.

Definition load_data : M (option DataFrame) :=
  t ← get_self;
  print ("Loading dataset from: " +:+ dataset_path t);;
  try_except
    (df ← read_csv (dataset_path t);
     print ("Dataset loaded: " +:+ pretty (len df) +:+ " samples");;
     print (nl +:+ "Dataset info:");;
     print (frame_info df);;
     print "None";;
     print (nl +:+ "First few rows:");;
     print (frame_repr (head df));;
     mret (Some df))
    (λ e,
     print ("Error loading dataset: " +:+ str_exn e);;
     mret None).

(** ** [preprocess_data] *)

Definition feature_cols : list string :=
  ["src_addr"; "dest_addr"; "src_battery"; "dest_battery";
   "path_distance"; "path_delay"; "path_quality"].

Definition target_col : string := "chosen_path".

Record Preprocessed := {
  X_train_scaled : list (list Q);
  X_test_scaled : list (list Q);
  y_train : list Q;
  y_test : list Q;
  X_train : DataFrame;
  X_test : DataFrame
}.

Definition preprocess_data (df : DataFrame) : M Preprocessed :=
  print (nl +:+ "Preprocessing data...");;
  X ← lift (getitem_list df feature_cols);
  y ← lift (getitem df target_col);
  print ("Features shape: " +:+ shape2 X);;
  print ("Target shape: " +:+ shape1 y);;
  print ("Number of unique paths: " +:+ pretty (nunique y));;
  '(Xtr, Xte, ytr, yte) ←
    from_lib "train_test_split" (lib_train_test_split (rows X) y (1 # 5) 42 y);
  Xtr_scaled ← scaler_fit_transform Xtr;
  Xte_scaled ← scaler_transform Xte;
  mret {| X_train_scaled := Xtr_scaled; X_test_scaled := Xte_scaled;
          y_train := ytr; y_test := yte;
          X_train := {| columns := columns X; rows := Xtr |};
          X_test := {| columns := columns X; rows := Xte |} |}.

(** Preprocessing as the specification words it (sections 4.2 and 7):
    the required columns are checked first and a table that lacks one is
    refused with an error of its own.  Written from the specification,
    to be compared with [preprocess_data]. *)
Definition preprocess_data_spec (df : DataFrame) : M Preprocessed :=
  match missing_columns df (feature_cols ++ [target_col]) with
  | [] => preprocess_data df
  | miss => raise (SchemaMismatch miss)
  end.

(** ** [train_models] *)

(** The dictionary [models] of [train_models], in insertion order. *)
Definition estimators : list (string * Estimator) :=
  [("Random Forest", RandomForestClassifier 100 42);
   ("K-Nearest Neighbors", KNeighborsClassifier 5);
   ("Decision Tree", DecisionTreeClassifier 10 42);
   ("SVM", SVC "rbf" 42)].

Definition model_fit (e : Estimator) (X : list (list Q)) (y : list Q) : M Model :=
  f ← from_lib "fit" (lib_fit e X y);
  mret {| estimator := e; fitted := f |}.

Definition model_predict (m : Model) (X : list (list Q)) : M (list Q) :=
  from_lib "predict" (lib_predict (estimator m) (fitted m) X).

Definition count_matches (y_true y_pred : list Q) : nat :=
  length (filter (λ p, Qeq_bool p.1 p.2 = true) (zip y_true y_pred)).

(** The fraction of exact label matches.  An empty partition, whose
    score is a NaN in Python, gives 0 here: neither exceeds a running
    best that starts from 0.0. *)
Definition accuracy_score (y_true y_pred : list Q) : result Q :=
  if Nat.eqb (length y_true) (length y_pred)
  then Ok (Qred (Z.of_nat (count_matches y_true y_pred) # Pos.of_nat (length y_true)))
  else Raise (ValueError "Found input variables with inconsistent numbers of samples").

Definition Qgt_bool (a b : Q) : bool := negb (Qle_bool a b).

(** [d[k] = v] and [d[k]] on a dictionary kept in insertion order. *)
Fixpoint dict_set {V} (d : list (string * V)) (k : string) (v : V) : list (string * V) :=
  match d with
  | [] => [(k, v)]
  | (k', v') :: rest =>
      if String.eqb k k' then (k, v) :: rest else (k', v') :: dict_set rest k v
  end.

Fixpoint dict_get {V} (d : list (string * V)) (k : string) : option V :=
  match d with
  | [] => None
  | (k', v') :: rest => if String.eqb k k' then Some v' else dict_get rest k
  end.

(** One turn of the loop over [models.items()]. *)
Definition train_one (Xtr Xte : list (list Q)) (ytr yte : list Q)
    (results : list (string * ModelResult)) (item : string * Estimator)
  : M (list (string * ModelResult)) :=
  print (nl +:+ "--- Training " +:+ item.1 +:+ " ---");;
  model ← model_fit item.2 Xtr ytr;
  y_pred ← model_predict model Xte;
  accuracy ← lift (accuracy_score yte y_pred);
  let results' :=
    dict_set results item.1
      {| r_model := model; r_accuracy := accuracy; r_predictions := y_pred |} in
  print ("Accuracy: " +:+ format_float 4 accuracy);;
  t ← get_self;
  (if Qgt_bool accuracy (best_accuracy t)
   then set_best_accuracy accuracy;;
        set_best_model (Some model);;
        set_best_model_name item.1
   else mret tt);;
  mret results'.

Definition train_models (Xtr Xte : list (list Q)) (ytr yte : list Q)
  : M (list (string * ModelResult)) :=
  print (nl +:+ str_mul "=" 50);;
  print "TRAINING ML MODELS";;
  print (str_mul "=" 50);;
  results ← for_each estimators [] (train_one Xtr Xte ytr yte);
  set_models results;;
  mret results.

(** ** [evaluate_models] *)

Definition evaluate_models (yte : list Q) : M unit :=
  print (nl +:+ str_mul "=" 50);;
  print "MODEL EVALUATION";;
  print (str_mul "=" 50);;
  t ← get_self;
  let model_names := map fst (models t) in
  let accuracies := map (λ kv, r_accuracy kv.2) (models t) in
  write_file "model_comparison.png"
    (Png (BarChart "Model Performance Comparison" "Model" "Accuracy"
            model_names accuracies (map (format_float 3) accuracies)));;
  print "Saved: model_comparison.png";;
  name ← get_best_model_name;
  print (nl +:+ "--- Best Model: " +:+ name +:+ " ---");;
  print ("Accuracy: " +:+ format_float 4 (best_accuracy t));;
  match dict_get (models t) name with
  | None => raise (KeyError [name])
  | Some r =>
      let y_pred_best := r_predictions r in
      print (nl +:+ "Classification Report:");;
      print (classification_report yte y_pred_best);;
      write_file "confusion_matrix.png"
        (Png (Heatmap ("Confusion Matrix - " +:+ name) "Predicted Path" "Actual Path"
                (confusion_matrix yte y_pred_best)));;
      print "Saved: confusion_matrix.png"
  end.

(** ** [feature_importance] *)

(** [self.best_model.feature_importances_]: only the tree-based classes
    have the attribute, and [None] has none. *)
Definition feature_importances_ (m : option Model) : M (list Q) :=
  match m with
  | Some m =>
      if has_importances (estimator m)
      then mret (lib_importances (estimator m) (fitted m))
      else raise (AttributeError "feature_importances_")
  | None => raise (AttributeError "feature_importances_")
  end.

Fixpoint insert_by (v : list Q) (i : nat) (sorted : list nat) : list nat :=
  match sorted with
  | [] => [i]
  | j :: rest =>
      if Qle_bool (cell v j) (cell v i) then j :: insert_by v i rest
      else i :: j :: rest
  end.

(** [np.argsort]: the indices in ascending order of their values. *)
Definition argsort (v : list Q) : list nat :=
  foldl (λ acc i, insert_by v i acc) [] (seq 0 (length v)).

(** [l[i]] on a sequence. *)
Definition item {A} (l : list A) (i : nat) : result A :=
  match l !! i with
  | Some a => Ok a
  | None => Raise IndexError
  end.

Definition feature_importance (X_train_original : DataFrame) : M unit :=
  name ← get_best_model_name;
  if bool_decide (name ∈ ["Random Forest"; "Decision Tree"]) then
    print (nl +:+ str_mul "=" 50);;
    print "FEATURE IMPORTANCE";;
    print (str_mul "=" 50);;
    let feature_names := columns X_train_original in
    t ← get_self;
    importances ← feature_importances_ (best_model t);
    let indices := reverse (argsort importances) in
    print (nl +:+ "Feature ranking:");;
    for_each (zip (seq 1 (length indices)) indices) tt
      (λ _ p,
         fname ← lift (item feature_names p.2);
         imp ← lift (item importances p.2);
         print (pretty p.1 +:+ ". " +:+ fname +:+ ": " +:+ format_float 4 imp));;
    heights ← for_each indices [] (λ acc i, x ← lift (item importances i); mret (acc ++ [x]));
    ticks ← for_each indices [] (λ acc i, x ← lift (item feature_names i); mret (acc ++ [x]));
    write_file "feature_importance.png"
      (Png (BarChart "Feature Importance" "Feature" "Importance" ticks heights []));;
    print "Saved: feature_importance.png"
  else mret tt.

(** ** [save_model], [load_model], [predict_path] *)

(** The dictionary handed to [joblib.dump]. *)
Definition bundle (t : SDNMLTrainer) (m : Model) (name : string) : gmap string Value :=
  <["accuracy" := VFloat (best_accuracy t)]>
    (<["model_name" := VStr name]>
       (<["scaler" := VScaler (scaler t)]>
          (<["model" := VModel m]> ∅))).

Definition save_model (filename : string) : M unit :=
  t ← get_self;
  match best_model t with
  | Some m =>
      name ← get_best_model_name;
      write_file filename (Pickle (bundle t m name));;
      print (nl +:+ "Model saved: " +:+ filename)
  | None => mret tt
  end.

Definition joblib_load (filename : string) : M (gmap string Value) :=
  f ← read_file filename;
  match f with
  | Pickle d => mret d
  | _ => raise (UnpicklingError filename)
  end.

(** [data[k]] on the loaded dictionary. *)
Definition dict_item (data : gmap string Value) (k : string) : M Value :=
  match data !! k with
  | Some v => mret v
  | None => raise (KeyError [k])
  end.

(** The fields of the trainer are typed here.  An entry of another kind
    than [save_model] writes, which Python would store unchecked, is
    outside the embedding and is reported as a [TypeError]. *)
Definition as_model (v : Value) : M Model :=
  match v with VModel m => mret m | _ => raise (TypeError "model") end.

Definition as_scaler (v : Value) : M StandardScaler :=
  match v with VScaler s => mret s | _ => raise (TypeError "scaler") end.

Definition as_str (v : Value) : M string :=
  match v with VStr s => mret s | _ => raise (TypeError "model_name") end.

Definition as_float (v : Value) : M Q :=
  match v with VFloat q => mret q | _ => raise (TypeError "accuracy") end.

Definition load_model (filename : string) : M unit :=
  data ← joblib_load filename;
  m ← dict_item data "model" ≫= as_model;
  set_best_model (Some m);;
  s ← dict_item data "scaler" ≫= as_scaler;
  set_scaler s;;
  n ← dict_item data "model_name" ≫= as_str;
  set_best_model_name n;;
  a ← dict_item data "accuracy" ≫= as_float;
  set_best_accuracy a;;
  print ("Model loaded: " +:+ n +:+ " (Accuracy: " +:+ format_float 4 a +:+ ")").

Definition predict_path
    (src_addr dest_addr src_battery dest_battery
     path_distance path_delay path_quality : Q) : M (option Q) :=
  t ← get_self;
  match best_model t with
  | None =>
      print "Error: No trained model available";;
      mret None
  | Some m =>
      let X_new := [[src_addr; dest_addr; src_battery; dest_battery;
                     path_distance; path_delay; path_quality]] in
      X_new_scaled ← scaler_transform X_new;
      y ← model_predict m X_new_scaled;
      predicted_path ← lift (item y 0);
      mret (Some predicted_path)
  end.

(** ** [main] *)

Definition str_option (o : option Q) : string :=
  match o with Some q => str_number q | None => "None" end.

Definition insufficient_data : M unit :=
  print (nl +:+ "Insufficient data for training!");;
  print "Please run the simulation longer to collect more samples.".

Definition pipeline (df : DataFrame) : M unit :=
  p ← preprocess_data df;
  train_models (X_train_scaled p) (X_test_scaled p) (y_train p) (y_test p);;
  evaluate_models (y_test p);;
  feature_importance (X_train p);;
  save_model "sdn_best_model.pkl";;
  print (nl +:+ str_mul "=" 60);;
  print "TRAINING COMPLETED!";;
  print (str_mul "=" 60);;
  name ← get_best_model_name;
  print ("Best Model: " +:+ name);;
  t ← get_self;
  print ("Accuracy: " +:+ format_float 4 (best_accuracy t));;
  print (nl +:+ "Generated files:");;
  print "  - sdn_best_model.pkl";;
  print "  - model_comparison.png";;
  print "  - confusion_matrix.png";;
  print "  - feature_importance.png";;
  print (nl +:+ str_mul "=" 60);;
  print "EXAMPLE PREDICTION";;
  print (str_mul "=" 60);;
  predicted_path ← predict_path 1 3 85 90 50 (5 # 100) 75;
  print ("Predicted optimal path: " +:+ str_option predicted_path).

Definition main : M unit :=
  print (str_mul "=" 60);;
  print "SDN SMART ROUTING - ML TRAINING";;
  print (str_mul "=" 60);;
  set_self (init "sdn_dataset.csv");;
  df ← load_data;
  match df with
  | None => insufficient_data
  | Some df => if (len df <? 10)%nat then insufficient_data else pipeline df
  end.

(** ** Pure views of the training loop

    What one turn of the loop leaves behind, as functions of the
    trainer, for the statements below. *)

(** [r] is what fitting, predicting and scoring [item] yields. *)
Definition trained (Xtr Xte : list (list Q)) (ytr yte : list Q)
    (item : string * Estimator) (r : ModelResult) : Prop :=
  lib_fit item.2 Xtr ytr = Some (fitted (r_model r)) ∧
  estimator (r_model r) = item.2 ∧
  lib_predict item.2 (fitted (r_model r)) Xte = Some (r_predictions r) ∧
  accuracy_score yte (r_predictions r) = Ok (r_accuracy r).

(** The [if accuracy > self.best_accuracy] block. *)
Definition keep_best (t : SDNMLTrainer) (entry : string * ModelResult) : SDNMLTrainer :=
  if Qgt_bool (r_accuracy entry.2) (best_accuracy t)
  then {| dataset_path := dataset_path t; models := models t; scaler := scaler t;
          best_model := Some (r_model entry.2);
          best_accuracy := r_accuracy entry.2;
          best_model_name := Some entry.1 |}
  else t.

Definition training_log (entry : string * ModelResult) : list string :=
  [nl +:+ "--- Training " +:+ entry.1 +:+ " ---";
   "Accuracy: " +:+ format_float 4 (r_accuracy entry.2)].

Definition training_banner : list string :=
  [nl +:+ str_mul "=" 50; "TRAINING ML MODELS"; str_mul "=" 50].

Definition with_models (t : SDNMLTrainer) (v : list (string * ModelResult)) : SDNMLTrainer :=
  {| dataset_path := dataset_path t; models := v; scaler := scaler t;
     best_model := best_model t; best_accuracy := best_accuracy t;
     best_model_name := best_model_name t |}.

(** The name stored with the best model is the key of its class in
    [estimators]. *)
Definition named_after_class (t : SDNMLTrainer) : Prop :=
  match best_model t, best_model_name t with
  | Some m, Some n => (n, estimator m) ∈ estimators
  | None, None => True
  | _, _ => False
  end.

(** What [main] prints up to the row-count guard, given what is found
    at the dataset path. *)
Definition load_log (path : string) (found : option File) : list string :=
  ["Loading dataset from: " +:+ path] ++
  match found with
  | Some (Csv df) =>
      ["Dataset loaded: " +:+ pretty (len df) +:+ " samples";
       nl +:+ "Dataset info:"; frame_info df; "None";
       nl +:+ "First few rows:"; frame_repr (head df)]
  | Some _ => ["Error loading dataset: " +:+ str_exn (ParserError path)]
  | None => ["Error loading dataset: " +:+ str_exn (FileNotFoundError path)]
  end.

Definition main_banner : list string :=
  [str_mul "=" 60; "SDN SMART ROUTING - ML TRAINING"; str_mul "=" 60].

Definition insufficient_lines : list string :=
  [nl +:+ "Insufficient data for training!";
   "Please run the simulation longer to collect more samples."].


(** ** Frames

    [keeps R m]: whatever [m] returns or raises, the world it leaves is
    related by [R] to the one it found.  [agree view] relates two worlds
    that show the same [view]. *)
Definition keeps {A} (R : World → World → Prop) (m : M A) : Prop :=
  ∀ w, R w (m w).2.

Definition agree {B} (view : World → B) (w w' : World) : Prop :=
  view w' = view w.

(** The four files [main] may create. *)
Definition artifacts : list string :=
  ["sdn_best_model.pkl"; "model_comparison.png"; "confusion_matrix.png";
   "feature_importance.png"].


(** The bar chart [evaluate_models] draws from the registry. *)
Definition comparison_chart (t : SDNMLTrainer) : Figure :=
  BarChart "Model Performance Comparison" "Model" "Accuracy"
    (map fst (models t))
    (map (λ kv, r_accuracy kv.2) (models t))
    (map (format_float 3) (map (λ kv, r_accuracy kv.2) (models t))).

(** The trainer after the assignment [self.best_model = m]. *)
Definition with_best_model (t : SDNMLTrainer) (m : Model) : SDNMLTrainer :=
  {| dataset_path := dataset_path t; models := models t; scaler := scaler t;
     best_model := Some m; best_accuracy := best_accuracy t;
     best_model_name := best_model_name t |}.


End Trainer.

(** ** A small executable library

    Enough of the numeric libraries to run the trainer on concrete
    tables: every estimator is a one-nearest-neighbour rule on a single
    feature (the forest on column 0, the neighbours on column 1, the
    tree on column 2, the kernel machine on column 3), and the splitter
    keeps the last fifth of the rows for testing. *)
Module Example.

Definition feature_of (e : Estimator) : nat :=
  match e with
  | RandomForestClassifier _ _ => 0
  | KNeighborsClassifier _ => 1
  | DecisionTreeClassifier _ _ => 2
  | SVC _ _ => 3
  end.

Definition nn_fit (e : Estimator) (X : list (list Q)) (y : list Q) : option (list (Q * Q)) :=
  match X with
  | [] => None
  | _ => if Nat.eqb (length X) (length y)
         then Some (zip (column (feature_of e) X) y)
         else None
  end.

Definition closer (x : Q) (p best : Q * Q) : bool :=
  negb (Qle_bool (Qabs (x - best.1)) (Qabs (x - p.1))).

Fixpoint nearest (x : Q) (best : Q * Q) (pts : list (Q * Q)) : Q :=
  match pts with
  | [] => best.2
  | p :: rest => nearest x (if closer x p best then p else best) rest
  end.

Definition nn_predict (e : Estimator) (pts : list (Q * Q)) (X : list (list Q)) : option (list Q) :=
  match X, pts with
  | [], _ | _, [] => None
  | _, p :: rest => Some (map (λ r, nearest (cell r (feature_of e)) p rest) X)
  end.

Definition nn_importances (e : Estimator) (pts : list (Q * Q)) : list Q :=
  map (λ j, if Nat.eqb j (feature_of e) then 1%Q else 0%Q) (seq 0 7).

(** A stand-in for the splitter, to run the examples only: it keeps the
    last fifth of the rows for testing, without the shuffle and the
    stratification of the library's [train_test_split], so it picks other
    rows than the library does.  The statements about the script hold
    for every splitter; this one only instantiates them. *)
Definition tail_split (X : list (list Q)) (y : list Q)
    (test_size : Q) (random_state : nat) (stratify : list Q)
  : option (list (list Q) * list (list Q) * list Q * list Q) :=
  let n := length X in
  let n_test := Z.to_nat (Qceiling (inject_Z (Z.of_nat n) * test_size)) in
  if (n <? 2)%nat then None
  else Some (take (n - n_test) X, drop (n - n_test) X,
             take (n - n_test) y, drop (n - n_test) y).

(** A square root good to three decimals. *)
Definition sqrt3 (q : Q) : Q :=
  Z.sqrt (Qnum q * Z.pos (Qden q) * 1000000) # (Qden q * 1000).

Definition pad_left (n : nat) (s : string) : string :=
  str_mul "0" (n - String.length s) +:+ s.

Definition fixed (digits : nat) (q : Q) : string :=
  let scale := (10 ^ Z.of_nat digits)%Z in
  let n := Qfloor (q * inject_Z scale + (1 # 2)) in
  pretty (n / scale)%Z +:+ "." +:+ pad_left digits (pretty (n mod scale)%Z).

Definition show_number (q : Q) : string :=
  if Pos.eqb (Qden (Qred q)) 1 then pretty (Qnum (Qred q)) else fixed 2 q.

#[export] Instance library : Library := {|
  Fitted := list (Q * Q);
  lib_fit := nn_fit;
  lib_predict := nn_predict;
  lib_importances := nn_importances;
  lib_train_test_split := tail_split;
  lib_sqrt := sqrt3;
  classification_report := λ y_true y_pred,
    "support " +:+ pretty (length y_true);
  confusion_matrix := λ y_true y_pred,
    [[count_matches y_true y_pred; (length y_true - count_matches y_true y_pred)%nat]];
  format_float := fixed;
  str_number := show_number;
  frame_info := λ df, pretty (len df) +:+ " entries, " +:+ pretty (length (columns df)) +:+ " columns";
  frame_repr := λ df, join " " (columns df)
|}.

Definition header : list string := feature_cols ++ [target_col].

(** A flow: the label is the last cell. *)
Definition flow (a b c d : Q) (label : Q) : list Q :=
  [a; b; c; d; 50; 5 # 100; 75; label]%Q.

(** Ten flows that every rule learns: each of the four columns used
    separates the two paths. *)
Definition separable : DataFrame :=
  {| columns := header;
     rows := [flow 0 0 0 0 1; flow 9 9 9 9 2; flow 1 1 1 1 1; flow 8 8 8 8 2;
              flow 0 1 0 1 1; flow 9 8 9 8 2; flow 1 0 1 0 1; flow 8 9 8 9 2;
              flow 0 0 1 1 1; flow 9 9 8 8 2] |}.

Definition short : DataFrame :=
  {| columns := header; rows := take 9 (rows separable) |}.

Definition no_quality : DataFrame :=
  {| columns := ["src_addr"; "dest_addr"; "src_battery"; "dest_battery";
                 "path_distance"; "path_delay"; "chosen_path"];
     rows := map (λ r, take 6 r ++ drop 7 r) (rows separable) |}.

Definition world (t : SDNMLTrainer) (files : gmap string File) : World :=
  {| self := t; fs := files; stdout := [] |}.

Definition on_disk (df : DataFrame) : World :=
  world (init "sdn_dataset.csv") {[ "sdn_dataset.csv" := Csv df ]}.

(** Partitions on which every rule is wrong on every test flow. *)
Definition Xtr0 : list (list Q) := [[0; 0; 0; 0]; [9; 9; 9; 9]]%Q.
Definition ytr0 : list Q := [1; 2]%Q.
Definition Xte0 : list (list Q) := [[1; 1; 1; 1]; [8; 8; 8; 8]]%Q.
Definition yte0 : list Q := [2; 1]%Q.

Definition wrong (e : Estimator) : ModelResult :=
  {| r_model := {| estimator := e; fitted := [(0, 1); (9, 2)]%Q |};
     r_accuracy := 0;
     r_predictions := [1; 2]%Q |}.

Definition fresh : World := world (init "sdn_dataset.csv") ∅.

(** A trainer that holds a model and a fitted scaler. *)
Definition forest : Model :=
  {| estimator := RandomForestClassifier 100 42; fitted := [(0, 1); (9, 2)]%Q |}.


Definition unit_scaler : StandardScaler :=
  FittedScaler [0; 0; 0; 0; 0; 0; 0]%Q [1; 1; 1; 1; 1; 1; 1]%Q [1; 1; 1; 1; 1; 1; 1]%Q.

Definition holding (m : Model) (name : string) : SDNMLTrainer :=
  {| dataset_path := "sdn_dataset.csv"; models := []; scaler := unit_scaler;
     best_model := Some m; best_accuracy := 1; best_model_name := Some name |}.

Definition trained_world : World := world (holding forest "Random Forest") ∅.


(** A world where the artifact of [trained_world] is on disk. *)
Definition saved_world : World :=
  world (init "sdn_dataset.csv")
    {[ "sdn_best_model.pkl" :=
         Pickle (bundle (holding forest "Random Forest") forest "Random Forest") ]}.

Definition feature_table : DataFrame := {| columns := feature_cols; rows := [] |}.

Definition separable_run : result Preprocessed * World :=
  preprocess_data separable fresh.

Definition no_partitions : Preprocessed :=
  {| X_train_scaled := []; X_test_scaled := []; y_train := []; y_test := [];
     X_train := feature_table; X_test := feature_table |}.

Definition separable_parts : Preprocessed :=
  match separable_run.1 with Ok p => p | Raise _ => no_partitions end.

(** Test flows on which every rule is right. *)
Definition yte1 : list Q := [1; 2]%Q.

Definition right (e : Estimator) : ModelResult :=
  {| r_model := {| estimator := e; fitted := [(0, 1); (9, 2)]%Q |};
     r_accuracy := 1;
     r_predictions := [1; 2]%Q |}.

(** A trainer that was handed a model but never a name. *)
Definition nameless_world : World :=
  world (with_best_model (init "sdn_dataset.csv") forest) ∅.

(** An artifact without scaler, name and accuracy. *)
Definition model_only : gmap string Value := {[ "model" := VModel forest ]}.

Definition partial_world : World :=
  world (init "sdn_dataset.csv") {[ "sdn_best_model.pkl" := Pickle model_only ]}.

Definition separable_main : result unit * World := main (on_disk separable).


End Example.

(** * Properties *)

Section Properties.
Context `{Library}.

(** Unfolds one layer of monadic plumbing. *)
Ltac plumbing :=
  unfold set_models, set_scaler, set_best_model, set_best_accuracy,
    set_best_model_name, get_best_model_name, get_self, set_self, print,
    write_file, read_file, raise, lift, from_lib, try_except,
    mbind, M_bind, mret, M_ret in *.

Ltac run := repeat (plumbing; simpl in *).

Lemma world_eta (w : World) :
  {| self := self w; fs := fs w; stdout := stdout w |} = w.
Proof. by destruct w. Qed.

Lemma trainer_eta (t : SDNMLTrainer) :
  {| dataset_path := dataset_path t; models := models t; scaler := scaler t;
     best_model := best_model t; best_accuracy := best_accuracy t;
     best_model_name := best_model_name t |} = t.
Proof. by destruct t. Qed.

(** ** Persistence *)


Lemma save_model_trained (filename : string) (w : World) m name :
  best_model (self w) = Some m →
  best_model_name (self w) = Some name →
  save_model filename w =
    (Ok tt, {| self := self w;
               fs := <[filename := Pickle (bundle (self w) m name)]> (fs w);
               stdout := stdout w ++ [nl +:+ "Model saved: " +:+ filename] |}).
Proof. intros Hb Hn. unfold save_model. run. rewrite Hb. run. by rewrite Hn. Qed.

Lemma bundle_lookups (t : SDNMLTrainer) m name :
  bundle t m name !! "model" = Some (VModel m) ∧
  bundle t m name !! "scaler" = Some (VScaler (scaler t)) ∧
  bundle t m name !! "model_name" = Some (VStr name) ∧
  bundle t m name !! "accuracy" = Some (VFloat (best_accuracy t)).
Proof. unfold bundle. by simplify_map_eq. Qed.

Lemma load_model_bundle (filename : string) (w : World) d m s n a :
  fs w !! filename = Some (Pickle d) →
  d !! "model" = Some (VModel m) →
  d !! "scaler" = Some (VScaler s) →
  d !! "model_name" = Some (VStr n) →
  d !! "accuracy" = Some (VFloat a) →
  load_model filename w =
    (Ok tt,
     {| self := {| dataset_path := dataset_path (self w); models := models (self w);
                   scaler := s; best_model := Some m; best_accuracy := a;
                   best_model_name := Some n |};
        fs := fs w;
        stdout := stdout w ++
          ["Model loaded: " +:+ n +:+ " (Accuracy: " +:+ format_float 4 a +:+ ")"] |}).
Proof.
  intros Hf Hm Hs Hn Ha. unfold load_model, joblib_load, dict_item. run.
  rewrite Hf. simpl. rewrite Hm. simpl. rewrite Hs. simpl. rewrite Hn. simpl.
  rewrite Ha. reflexivity.
Qed.

Lemma load_model_preserves (filename : string) (w : World) :
  dataset_path (self (load_model filename w).2) = dataset_path (self w) ∧
  models (self (load_model filename w).2) = models (self w) ∧
  fs (load_model filename w).2 = fs w.
Proof.
  unfold load_model, joblib_load, dict_item, as_model, as_scaler, as_str, as_float.
  run. repeat (case_match; simplify_eq/=); done.
Qed.

(** ** The training loop *)

Lemma train_one_trained Xtr Xte ytr yte results item r (w : World) :
  trained Xtr Xte ytr yte item r →
  train_one Xtr Xte ytr yte results item w =
    (Ok (dict_set results item.1 r),
     {| self := keep_best (self w) (item.1, r); fs := fs w;
        stdout := stdout w ++ training_log (item.1, r) |}).
Proof.
  intros (Hfit & Hest & Hpred & Hacc). destruct r as [[e f] a p]; simpl in *. subst e.
  unfold train_one, model_fit, model_predict, keep_best, training_log. run.
  rewrite Hfit. simpl. rewrite Hpred. simpl. rewrite Hacc. simpl.
  destruct (Qgt_bool a (best_accuracy (self w))); simpl;
    by rewrite <- ?app_assoc.
Qed.

Lemma for_each_trained Xtr Xte ytr yte items rs :
  Forall2 (trained Xtr Xte ytr yte) items rs →
  ∀ results (w : World),
  for_each items results (train_one Xtr Xte ytr yte) w =
    (Ok (foldl (λ d e, dict_set d e.1 e.2) results (zip items.*1 rs)),
     {| self := foldl keep_best (self w) (zip items.*1 rs); fs := fs w;
        stdout := stdout w ++ concat (training_log <$> zip items.*1 rs) |}).
Proof.
  induction 1 as [|item r items rs Hr _ IH]; intros results w; simpl.
  - rewrite app_nil_r. by rewrite world_eta.
  - unfold mbind, M_bind. rewrite (train_one_trained _ _ _ _ _ _ _ _ Hr).
    rewrite IH. simpl. by rewrite <- app_assoc.
Qed.

Lemma train_models_trained Xtr Xte ytr yte rs (w : World) :
  Forall2 (trained Xtr Xte ytr yte) estimators rs →
  train_models Xtr Xte ytr yte w =
    (Ok (zip estimators.*1 rs),
     {| self := with_models (foldl keep_best (self w) (zip estimators.*1 rs))
                  (zip estimators.*1 rs);
        fs := fs w;
        stdout := stdout w ++ training_banner ++
                  concat (training_log <$> zip estimators.*1 rs) |}).
Proof.
  intros Hrs. unfold train_models.
  assert (Hlen : length rs = 4%nat) by (by rewrite <- (Forall2_length _ _ _ Hrs)).
  unfold mbind, M_bind, print, set_models, get_self, set_self, mret, M_ret.
  cbv beta iota zeta. rewrite (for_each_trained _ _ _ _ _ _ Hrs).
  destruct rs as [|r1 [|r2 [|r3 [|r4 [|]]]]]; simplify_eq/=.
  unfold with_models. simpl. by rewrite <- !app_assoc.
Qed.

(** ** Selection of the best model *)

Lemma Qgt_bool_true (a b : Q) : Qgt_bool a b = true ↔ (b < a)%Q.
Proof.
  unfold Qgt_bool. rewrite negb_true_iff, <- not_true_iff_false, Qle_bool_iff.
  split; [apply Qnot_le_lt | apply Qlt_not_le].
Qed.

Lemma Qgt_bool_false (a b : Q) : Qgt_bool a b = false ↔ (a <= b)%Q.
Proof. unfold Qgt_bool. by rewrite negb_false_iff, Qle_bool_iff. Qed.

Lemma keep_best_frame (t : SDNMLTrainer) e :
  dataset_path (keep_best t e) = dataset_path t ∧
  models (keep_best t e) = models t ∧
  scaler (keep_best t e) = scaler t.
Proof. unfold keep_best. by case_match. Qed.

Lemma keep_best_fold_frame entries (t : SDNMLTrainer) :
  dataset_path (foldl keep_best t entries) = dataset_path t ∧
  models (foldl keep_best t entries) = models t ∧
  scaler (foldl keep_best t entries) = scaler t.
Proof.
  revert t. induction entries as [|e entries IH]; intros t; simpl; [done|].
  destruct (IH (keep_best t e)) as (-> & -> & ->). apply keep_best_frame.
Qed.

(** The loop keeps the trainer as it was when nothing beats the running
    best, and otherwise ends on the first entry of maximal accuracy. *)
Lemma keep_best_fold entries (t : SDNMLTrainer) :
  (Forall (λ e, (r_accuracy e.2 <= best_accuracy t)%Q) entries ∧
   foldl keep_best t entries = t) ∨
  (∃ i e, entries !! i = Some e ∧
     best_model (foldl keep_best t entries) = Some (r_model e.2) ∧
     best_model_name (foldl keep_best t entries) = Some e.1 ∧
     best_accuracy (foldl keep_best t entries) = r_accuracy e.2 ∧
     (best_accuracy t < r_accuracy e.2)%Q ∧
     (∀ j e', (j < i)%nat → entries !! j = Some e' →
        (r_accuracy e'.2 < r_accuracy e.2)%Q) ∧
     (∀ j e', entries !! j = Some e' → (r_accuracy e'.2 <= r_accuracy e.2)%Q)).
Proof.
  revert t. induction entries as [|e0 entries IH]; intros t; simpl.
  { left. by split. }
  destruct (Qgt_bool (r_accuracy e0.2) (best_accuracy t)) eqn:Hgt.
  - apply Qgt_bool_true in Hgt. right.
    assert (Hbest : best_accuracy (keep_best t e0) = r_accuracy e0.2).
    { unfold keep_best. by apply Qgt_bool_true in Hgt as ->. }
    destruct (IH (keep_best t e0)) as [[Hall ->]|(i & e & Hi & Hm & Hn & Ha & Hlt & Hbefore & Hmax)].
    + exists 0%nat, e0. rewrite Hbest in Hall.
      unfold keep_best. apply Qgt_bool_true in Hgt as Hgt'. rewrite Hgt'. simpl.
      repeat split; try done.
      * intros j e' Hj. lia.
      * intros [|j] e' Hj; simplify_eq/=; [apply Qle_refl|].
        by eapply (Forall_lookup_1 _ _ _ _ Hall).
    + exists (S i), e. rewrite Hbest in Hlt. repeat split; try done.
      * by eapply Qlt_trans.
      * intros [|j] e' Hj Hj'; simplify_eq/=; [done|]. eapply Hbefore; [|done]. lia.
      * intros [|j] e' Hj; simplify_eq/=; [by apply Qlt_le_weak|]. by eapply Hmax.
  - assert (Hkeep : keep_best t e0 = t) by (unfold keep_best; by rewrite Hgt).
    apply Qgt_bool_false in Hgt. rewrite Hkeep.
    destruct (IH t) as [[Hall ->]|(i & e & Hi & Hm & Hn & Ha & Hlt & Hbefore & Hmax)].
    + left. split; [by constructor|done].
    + right. exists (S i), e. repeat split; try done.
      * intros [|j] e' Hj Hj'; simplify_eq/=; [by eapply Qle_lt_trans|].
        eapply Hbefore; [|done]. lia.
      * intros [|j] e' Hj; simplify_eq/=; [|by eapply Hmax].
        apply Qlt_le_weak. by eapply Qle_lt_trans.
Qed.

Lemma keep_best_named (t : SDNMLTrainer) e :
  named_after_class t → (e.1, estimator (r_model e.2)) ∈ estimators →
  named_after_class (keep_best t e).
Proof. intros Ht He. unfold keep_best. by case_match. Qed.

Lemma keep_best_fold_named entries (t : SDNMLTrainer) :
  named_after_class t →
  Forall (λ e, (e.1, estimator (r_model e.2)) ∈ estimators) entries →
  named_after_class (foldl keep_best t entries).
Proof.
  intros Ht Hall. revert t Ht.
  induction Hall as [|e entries He _ IH]; intros t Ht; simpl; [done|].
  apply IH. by apply keep_best_named.
Qed.

Lemma trained_entries Xtr Xte ytr yte items rs :
  Forall2 (trained Xtr Xte ytr yte) items rs →
  Forall (λ e, (e.1, estimator (r_model e.2)) ∈ items) (zip items.*1 rs).
Proof.
  induction 1 as [|[n est] r items rs (_ & Hest & _) _ IH]; simpl; [done|].
  constructor; simpl in *.
  - rewrite Hest. by left.
  - eapply Forall_impl; [exact IH|]. intros e He. by right.
Qed.

(** After a run of [train_models] the best model, when there is one,
    carries the name of its own class. *)
Lemma train_models_named Xtr Xte ytr yte rs (w : World) :
  Forall2 (trained Xtr Xte ytr yte) estimators rs →
  named_after_class (self w) →
  named_after_class (self (train_models Xtr Xte ytr yte w).2).
Proof.
  intros Hrs Hw. rewrite (train_models_trained _ _ _ _ _ _ Hrs). simpl.
  pose proof (keep_best_fold_named (zip estimators.*1 rs) (self w) Hw
                (trained_entries _ _ _ _ _ _ Hrs)) as Hn.
  unfold named_after_class, with_models in *. exact Hn.
Qed.

(** ** Claims about the training loop *)

(** C9.  When every variant scores exactly 0.0 on a trainer whose
    running best is the initial 0.0, [train_models] returns the registry
    of the four variants, stores it, and leaves the best model null and
    the best-model name unset. *)
Theorem train_models_all_zero Xtr Xte ytr yte rs (w : World) :
  best_model (self w) = None →
  best_model_name (self w) = None →
  best_accuracy (self w) = 0%Q →
  Forall2 (trained Xtr Xte ytr yte) estimators rs →
  Forall (λ r, (r_accuracy r == 0)%Q) rs →
  ∃ w', train_models Xtr Xte ytr yte w = (Ok (zip estimators.*1 rs), w') ∧
    best_model (self w') = None ∧
    best_model_name (self w') = None ∧
    best_accuracy (self w') = 0%Q ∧
    models (self w') = zip estimators.*1 rs ∧
    (zip estimators.*1 rs).*1 =
      ["Random Forest"; "K-Nearest Neighbors"; "Decision Tree"; "SVM"].
Proof.
  intros Hm Hn Ha Hrs Hzero.
  assert (Hkeep : foldl keep_best (self w) (zip estimators.*1 rs) = self w).
  { destruct (keep_best_fold (zip estimators.*1 rs) (self w))
      as [[_ ?]|(i & e & Hi & _ & _ & _ & Hlt & _)]; [done|exfalso].
    rewrite Ha in Hlt. apply list_elem_of_lookup_2 in Hi.
    destruct e as [n r]. apply elem_of_zip_r in Hi. simpl in Hlt.
    rewrite Forall_forall in Hzero. apply Hzero in Hi. rewrite Hi in Hlt.
    by apply Qlt_irrefl in Hlt. }
  eexists. split; [by apply train_models_trained|].
  rewrite Hkeep. unfold with_models; cbn [self best_model best_model_name best_accuracy models].
  repeat split; try done.
  apply Forall2_length in Hrs.
  by destruct rs as [|r1 [|r2 [|r3 [|r4 [|]]]]]; simplify_eq/=.
Qed.

(** On a trainer whose running best is the initial 0.0, a variant of
    positive accuracy that is the first of maximal accuracy ends up as
    the best model. *)
Lemma train_models_first_max Xtr Xte ytr yte rs (w : World) i e :
  best_accuracy (self w) = 0%Q →
  Forall2 (trained Xtr Xte ytr yte) estimators rs →
  zip estimators.*1 rs !! i = Some e →
  (0 < r_accuracy e.2)%Q →
  (∀ j e', (j < i)%nat → zip estimators.*1 rs !! j = Some e' →
     (r_accuracy e'.2 < r_accuracy e.2)%Q) →
  (∀ j e', zip estimators.*1 rs !! j = Some e' →
     (r_accuracy e'.2 <= r_accuracy e.2)%Q) →
  best_model (self (train_models Xtr Xte ytr yte w).2) = Some (r_model e.2) ∧
  best_model_name (self (train_models Xtr Xte ytr yte w).2) = Some e.1 ∧
  best_accuracy (self (train_models Xtr Xte ytr yte w).2) = r_accuracy e.2.
Proof.
  intros Ha Hrs Hi Hpos Hfirst Hmax. rewrite (train_models_trained _ _ _ _ _ _ Hrs).
  unfold with_models; cbn [snd self best_model best_model_name best_accuracy].
  destruct (keep_best_fold (zip estimators.*1 rs) (self w))
    as [[Hall _]|(i' & e' & Hi' & Hm & Hn & Hacc & _ & Hfirst' & Hmax')].
  - exfalso. rewrite Ha in Hall. apply (Forall_lookup_1 _ _ _ _ Hall) in Hi.
    by eapply Qlt_irrefl, Qlt_le_trans.
  - assert (i' = i) as ->.
    { destruct (lt_eq_lt_dec i' i) as [[Hlt|Heq]|Hlt]; [exfalso|done|exfalso].
      - specialize (Hfirst _ _ Hlt Hi'). specialize (Hmax' _ _ Hi).
        by eapply Qlt_irrefl, Qlt_le_trans.
      - specialize (Hfirst' _ _ Hlt Hi). specialize (Hmax _ _ Hi').
        by eapply Qlt_irrefl, Qlt_le_trans. }
    by simplify_eq.
Qed.

(** C1.  Where the code departs from the claim.  On a freshly
    constructed trainer whose four variants all score 0.0, the maximal
    accuracy is 0.0 and the forest is the first variant to reach it, so
    the claim makes the forest the best model.  [train_models] returns
    the registry of the four, with the forest in it, but selects
    nothing: the best model is still null, hence not the forest's, and
    no best-model name is set; [evaluate_models] then fails on the
    missing name and [save_model] writes nothing. *)
Theorem first_max_not_selected_at_zero Xtr Xte ytr yte rs path (w : World) :
  self w = init path →
  Forall2 (trained Xtr Xte ytr yte) estimators rs →
  Forall (λ r, (r_accuracy r == 0)%Q) rs →
  ∃ forest,
    rs !! 0%nat = Some forest ∧
    estimator (r_model forest) = RandomForestClassifier 100 42 ∧
    (∀ r, r ∈ rs → (r_accuracy r <= r_accuracy forest)%Q) ∧
    (train_models Xtr Xte ytr yte w).1 = Ok (zip estimators.*1 rs) ∧
    dict_get (models (self (train_models Xtr Xte ytr yte w).2)) "Random Forest"
      = Some forest ∧
    best_model (self (train_models Xtr Xte ytr yte w).2) = None ∧
    best_model (self (train_models Xtr Xte ytr yte w).2) ≠ Some (r_model forest) ∧
    best_model_name (self (train_models Xtr Xte ytr yte w).2) = None ∧
    (evaluate_models yte (train_models Xtr Xte ytr yte w).2).1 =
      Raise (AttributeError "best_model_name") ∧
    fs (save_model "sdn_best_model.pkl" (train_models Xtr Xte ytr yte w).2).2 =
      fs w.
Proof.
  intros Hw Hrs Hzero.
  assert (Hkeep : foldl keep_best (self w) (zip estimators.*1 rs) = self w).
  { destruct (keep_best_fold (zip estimators.*1 rs) (self w))
      as [[_ ?]|(i & e & Hi & _ & _ & _ & Hlt & _)]; [done|exfalso].
    rewrite Hw in Hlt. apply list_elem_of_lookup_2 in Hi.
    destruct e as [n r]. apply elem_of_zip_r in Hi. simpl in Hlt.
    rewrite Forall_forall in Hzero. apply Hzero in Hi. rewrite Hi in Hlt.
    by apply Qlt_irrefl in Hlt. }
  rewrite (train_models_trained _ _ _ _ _ _ Hrs). cbn [fst snd].
  rewrite Hkeep, Hw.
  pose proof (Forall2_length _ _ _ Hrs) as Hlen.
  destruct rs as [|r1 [|r2 [|r3 [|r4 [|]]]]]; simplify_eq/=.
  exists r1. split; [done|].
  split. { apply Forall2_cons_1 in Hrs as [(_ & Hest & _) _]. exact Hest. }
  split.
  { intros r Hr. rewrite Forall_forall in Hzero.
    rewrite (Hzero r Hr), (Hzero r1 ltac:(by left)). apply Qle_refl. }
  split; [done|]. split; [done|]. split; [done|]. split; [done|]. split; [done|].
  split; [by unfold evaluate_models; run|].
  reflexivity.
Qed.

(** ** Claims about persistence and prediction *)

(** C2.  A trainer that holds a best model and its name is saved to a
    path; loading that path into any trainer succeeds and restores the
    same name, accuracy, model and scaler, so that the restored pair
    predicts as the saved one did, on a whole partition and on a single
    flow. *)
Theorem save_load_roundtrip (filename : string) (w : World)
    (other : SDNMLTrainer) (out : list string) m name :
  best_model (self w) = Some m →
  best_model_name (self w) = Some name →
  ∃ w', load_model filename
          {| self := other; fs := fs (save_model filename w).2; stdout := out |}
        = (Ok tt, w') ∧
    best_model_name (self w') = Some name ∧
    best_accuracy (self w') = best_accuracy (self w) ∧
    best_model (self w') = Some m ∧
    scaler (self w') = scaler (self w) ∧
    (∀ X, ((scaler_transform X ≫= model_predict m) w').1 =
          ((scaler_transform X ≫= model_predict m) w).1) ∧
    (∀ a b c d e f g,
       (predict_path a b c d e f g w').1 = (predict_path a b c d e f g w).1).
Proof.
  intros Hm Hn. rewrite (save_model_trained _ _ _ _ Hm Hn). simpl.
  destruct (bundle_lookups (self w) m name) as (Bm & Bs & Bn & Ba).
  eexists. split.
  { apply (load_model_bundle filename _ (bundle (self w) m name) m
             (scaler (self w)) name (best_accuracy (self w))); try done.
    apply lookup_insert_eq. }
  simpl. repeat split; try done.
  - intros X. unfold scaler_transform, model_predict. run.
    by repeat (case_match; simplify_eq/=).
  - intros a b c d e f g. unfold predict_path, scaler_transform, model_predict. run.
    rewrite Hm. by repeat (case_match; simplify_eq/=).
Qed.


(** C7.  Without a model [predict_path] prints an error, returns the
    null result and leaves trainer and files as they were.  With a model
    it scales the one-row matrix of the seven values with the stored
    scaler, asks the stored model and returns the first label; trainer,
    files and output are untouched. *)
Theorem predict_path_spec (a b c d e f g : Q) (w : World) :
  (best_model (self w) = None →
   predict_path a b c d e f g w =
     (Ok None, {| self := self w; fs := fs w;
                  stdout := stdout w ++ ["Error: No trained model available"] |})) ∧
  (∀ m, best_model (self w) = Some m →
   predict_path a b c d e f g w =
     (match StandardScaler_transform (scaler (self w)) [[a; b; c; d; e; f; g]] with
      | Ok X_new_scaled =>
          match lib_predict (estimator m) (fitted m) X_new_scaled with
          | Some (label :: _) => Ok (Some label)
          | Some [] => Raise IndexError
          | None => Raise (ValueError "predict")
          end
      | Raise err => Raise err
      end, w)).
Proof.
  split.
  - intros Hm. unfold predict_path. run. by rewrite Hm.
  - intros m Hm. unfold predict_path, scaler_transform, model_predict, item. run.
    rewrite Hm. by repeat (case_match; simplify_eq/=).
Qed.

(** C10.  Whatever [load_model] does, the dataset path, the registry of
    models and the files stay as they were; when the artifact holds the
    four entries, the trainer afterwards is the old one with exactly
    those four fields replaced. *)
Theorem load_model_frame (filename : string) (w : World) :
  dataset_path (self (load_model filename w).2) = dataset_path (self w) ∧
  models (self (load_model filename w).2) = models (self w) ∧
  fs (load_model filename w).2 = fs w ∧
  (∀ d m s n a,
     fs w !! filename = Some (Pickle d) →
     d !! "model" = Some (VModel m) →
     d !! "scaler" = Some (VScaler s) →
     d !! "model_name" = Some (VStr n) →
     d !! "accuracy" = Some (VFloat a) →
     (load_model filename w).1 = Ok tt ∧
     self (load_model filename w).2 =
       {| dataset_path := dataset_path (self w); models := models (self w);
          scaler := s; best_model := Some m; best_accuracy := a;
          best_model_name := Some n |}).
Proof.
  destruct (load_model_preserves filename w) as (Hp & Hr & Hf).
  repeat split; try done; by erewrite load_model_bundle.
Qed.

(** ** Claims about the pipeline *)

(** C3.  When the dataset cannot be read, or holds fewer than ten rows,
    [main] returns normally after the two lines of the insufficient-data
    message, with an untrained trainer and with the files as they were:
    nothing is written at [sdn_best_model.pkl]. *)
Theorem main_aborts_without_enough_data (w : World) :
  (∀ df, fs w !! "sdn_dataset.csv" = Some (Csv df) → (len df < 10)%nat) →
  main w =
    (Ok tt, {| self := init "sdn_dataset.csv"; fs := fs w;
               stdout := stdout w ++ main_banner ++
                 load_log "sdn_dataset.csv" (fs w !! "sdn_dataset.csv") ++
                 insufficient_lines |}) ∧
  fs (main w).2 !! "sdn_best_model.pkl" = fs w !! "sdn_best_model.pkl".
Proof.
  intros Hshort.
  assert (main w =
    (Ok tt, {| self := init "sdn_dataset.csv"; fs := fs w;
               stdout := stdout w ++ main_banner ++
                 load_log "sdn_dataset.csv" (fs w !! "sdn_dataset.csv") ++
                 insufficient_lines |})) as Hrun.
  { unfold main, load_data, read_csv, insufficient_data, insufficient_lines,
      load_log, main_banner. run.
    destruct (fs w !! "sdn_dataset.csv") as [[df| |]|] eqn:Hfile; simpl.
    - specialize (Hshort df eq_refl). apply Nat.ltb_lt in Hshort. rewrite Hshort.
      simpl. by rewrite <- !app_assoc.
    - by rewrite <- !app_assoc.
    - by rewrite <- !app_assoc.
    - by rewrite <- !app_assoc. }
  split; [done|]. by rewrite Hrun.
Qed.

(** ** Claims about preprocessing *)

Lemma predict_path_frame (a b c d e f g : Q) (w : World) :
  self (predict_path a b c d e f g w).2 = self w ∧
  fs (predict_path a b c d e f g w).2 = fs w.
Proof.
  unfold predict_path, scaler_transform, model_predict. run.
  by repeat (case_match; simplify_eq/=).
Qed.

(** C4.  After a successful [preprocess_data] the scaler of the trainer
    is the one fitted on the rows of the train partition that the
    splitter returned, whatever the test rows and the scaler before
    were; both partitions are transformed with it; and [predict_path]
    leaves the scaler as it finds it. *)
Theorem scaler_fitted_on_train_only (df : DataFrame) (w w' : World) (p : Preprocessed) :
  preprocess_data df w = (Ok p, w') →
  (∃ X y, getitem_list df feature_cols = Ok X ∧
          getitem df target_col = Ok y ∧
          lib_train_test_split (rows X) y (1 # 5) 42 y =
            Some (rows (X_train p), rows (X_test p), y_train p, y_test p)) ∧
  StandardScaler_fit (rows (X_train p)) = Ok (scaler (self w')) ∧
  StandardScaler_transform (scaler (self w')) (rows (X_train p)) = Ok (X_train_scaled p) ∧
  StandardScaler_transform (scaler (self w')) (rows (X_test p)) = Ok (X_test_scaled p) ∧
  (∀ a b c d e f g (w'' : World),
     scaler (self (predict_path a b c d e f g w'').2) = scaler (self w'')).
Proof.
  intros Hrun. unfold preprocess_data, scaler_fit_transform, scaler_transform in Hrun.
  run.
  destruct (getitem_list df feature_cols) as [X|] eqn:HX; simplify_eq/=.
  destruct (getitem df target_col) as [y|] eqn:Hy; simplify_eq/=.
  destruct (lib_train_test_split (rows X) y (1 # 5) 42 y)
    as [[[[Xtr Xte] ytr] yte]|] eqn:Hsplit; simplify_eq/=.
  destruct (StandardScaler_fit Xtr) as [s|] eqn:Hfit; simplify_eq/=.
  destruct (StandardScaler_transform s Xtr) as [Xtr'|] eqn:Htr; simplify_eq/=.
  destruct (StandardScaler_transform s Xte) as [Xte'|] eqn:Hte; simplify_eq/=.
  repeat split; try done.
  - by exists X, y.
  - intros. by destruct (predict_path_frame a b c d e f g w'') as [-> _].
Qed.

Lemma missing_columns_app df l1 l2 :
  missing_columns df (l1 ++ l2) = missing_columns df l1 ++ missing_columns df l2.
Proof. apply filter_app. Qed.

Lemma getitem_missing df c :
  missing_columns df [c] ≠ [] → getitem df c = Raise (KeyError [c]).
Proof.
  unfold missing_columns, getitem, has_column. rewrite filter_cons, filter_nil.
  by repeat case_match.
Qed.

Lemma getitem_list_raises df cols e :
  getitem_list df cols = Raise e → ∃ ks, e = KeyError ks.
Proof. unfold getitem_list. case_match; intros; simplify_eq; eauto. Qed.

Lemma getitem_raises df col e :
  getitem df col = Raise e → e = KeyError [col].
Proof. unfold getitem. case_match; intros; by simplify_eq. Qed.

Lemma StandardScaler_fit_raises X e :
  StandardScaler_fit X = Raise e → ∃ what, e = ValueError what.
Proof. unfold StandardScaler_fit. case_match; intros; simplify_eq; eauto. Qed.

Lemma StandardScaler_transform_raises s X e :
  StandardScaler_transform s X = Raise e →
  e = NotFittedError ∨ ∃ what, e = ValueError what.
Proof.
  unfold StandardScaler_transform. repeat case_match; intros; simplify_eq; eauto.
Qed.

(** No path through [preprocess_data] raises the schema error of the
    specification. *)
Lemma preprocess_data_no_schema_error df (w : World) miss :
  (preprocess_data df w).1 ≠ Raise (SchemaMismatch miss).
Proof.
  unfold preprocess_data, scaler_fit_transform, scaler_transform. run.
  destruct (getitem_list df feature_cols) as [X|e] eqn:HX; simpl.
  2: { apply getitem_list_raises in HX as [ks ->]. done. }
  destruct (getitem df target_col) as [y|e] eqn:Hy; simpl.
  2: { apply getitem_raises in Hy as ->. done. }
  destruct (lib_train_test_split (rows X) y (1 # 5) 42 y)
    as [[[[Xtr Xte] ytr] yte]|]; simpl; [|done].
  destruct (StandardScaler_fit Xtr) as [s|e] eqn:Hfit; simpl.
  2: { apply StandardScaler_fit_raises in Hfit as [what ->]. done. }
  destruct (StandardScaler_transform s Xtr) as [Xtr'|e] eqn:Htr; simpl.
  2: { apply StandardScaler_transform_raises in Htr as [->|[what ->]]; done. }
  destruct (StandardScaler_transform s Xte) as [Xte'|e] eqn:Hte; simpl; [done|].
  apply StandardScaler_transform_raises in Hte as [->|[what ->]]; done.
Qed.

(** C5, as the code has it.  On a table that lacks a required column
    [preprocess_data] stops at the column selection with a [KeyError]:
    it names the missing feature columns, or the target column when the
    seven features are all there.  Nothing was split or scaled, the
    trainer and the files are as before; one line was printed. *)
Theorem preprocess_data_missing_column (df : DataFrame) (w : World) :
  missing_columns df (feature_cols ++ [target_col]) ≠ [] →
  ∃ miss,
    preprocess_data df w =
      (Raise (KeyError miss),
       {| self := self w; fs := fs w;
          stdout := stdout w ++ [nl +:+ "Preprocessing data..."] |}) ∧
    miss ≠ [] ∧
    miss = match missing_columns df feature_cols with
           | [] => [target_col]
           | features => features
           end ∧
    (∀ c, c ∈ miss → c ∈ feature_cols ++ [target_col] ∧ has_column df c = false).
Proof.
  intros Hmiss. rewrite missing_columns_app in Hmiss.
  assert (Hsub : ∀ c l, c ∈ missing_columns df l → c ∈ l ∧ has_column df c = false).
  { intros c l Hc. unfold missing_columns in Hc. apply list_elem_of_filter in Hc. tauto. }
  assert (Htarget : target_col ∈ feature_cols ++ [target_col])
    by (apply elem_of_app; right; by left).
  assert (Hfeature : ∀ c, c ∈ feature_cols → c ∈ feature_cols ++ [target_col])
    by (intros c Hc; apply elem_of_app; by left).
  destruct (missing_columns df feature_cols) as [|c0 rest] eqn:Hfeat.
  - exists [target_col]. simpl in Hmiss.
    unfold preprocess_data, getitem_list. run. rewrite Hfeat. simpl.
    rewrite (getitem_missing _ _ Hmiss). simpl.
    split; [done|]. split; [done|]. split; [done|].
    intros c Hc. apply list_elem_of_singleton in Hc as ->.
    split; [exact Htarget|].
    destruct (missing_columns df [target_col]) as [|c' l'] eqn:Ht; [done|].
    assert (c' ∈ missing_columns df [target_col]) as Hin by (rewrite Ht; left).
    apply Hsub in Hin as [Hin Hno]. by apply list_elem_of_singleton in Hin as ->.
  - exists (c0 :: rest).
    unfold preprocess_data, getitem_list. run. rewrite Hfeat. simpl.
    split; [done|]. split; [done|]. split; [done|].
    intros c Hc. rewrite <- Hfeat in Hc. apply Hsub in Hc as [Hc Hno].
    split; [by apply Hfeature|done].
Qed.

(** ** Claims about the feature-importance report *)

Lemma insert_by_Forall (P : nat → Prop) v i sorted :
  P i → Forall P sorted → Forall P (insert_by v i sorted).
Proof.
  intros Hi. induction 1 as [|j rest Hj Hrest IH]; simpl.
  - by constructor.
  - case_match; repeat constructor; done.
Qed.

Lemma insert_by_length v i sorted :
  length (insert_by v i sorted) = S (length sorted).
Proof.
  induction sorted as [|j rest IH]; simpl; [done|]. case_match; simpl; by rewrite ?IH.
Qed.

Lemma argsort_fold v (todo acc : list nat) (P : nat → Prop) :
  Forall P todo → Forall P acc →
  Forall P (foldl (λ acc i, insert_by v i acc) acc todo) ∧
  length (foldl (λ acc i, insert_by v i acc) acc todo) = (length acc + length todo)%nat.
Proof.
  intros Htodo. revert acc. induction Htodo as [|i todo Hi _ IH]; intros acc Hacc; simpl.
  - split; [done|lia].
  - destruct (IH (insert_by v i acc)) as [? Hlen]; [by apply insert_by_Forall|].
    split; [done|]. rewrite Hlen, insert_by_length. lia.
Qed.

(** [argsort] returns as many indices as there are values, all in range. *)
Lemma argsort_in_range (v : list Q) :
  Forall (λ i, (i < length v)%nat) (argsort v) ∧ length (argsort v) = length v.
Proof.
  unfold argsort.
  destruct (argsort_fold v (seq 0 (length v)) [] (λ i, (i < length v)%nat)) as [? Hlen].
  - apply Forall_seq. intros. lia.
  - constructor.
  - split; [done|]. by rewrite Hlen, length_seq.
Qed.

Lemma item_in_range {A} (l : list A) (i : nat) :
  (i < length l)%nat → ∃ a, item l i = Ok a.
Proof.
  intros Hi. unfold item. destruct (lookup_lt_is_Some_2 l i Hi) as [a ->]. by exists a.
Qed.


(** The loop that prints the ranking. *)
Lemma for_each_ranking (names : list string) (importances : list Q)
    (pairs : list (nat * nat)) :
  Forall (λ p, (p.2 < length names)%nat ∧ (p.2 < length importances)%nat) pairs →
  ∀ (w : World), ∃ ranking,
    for_each pairs tt
      (λ _ p,
         fname ← lift (item names p.2);
         imp ← lift (item importances p.2);
         print (pretty p.1 +:+ ". " +:+ fname +:+ ": " +:+ format_float 4 imp)) w
      = (Ok tt, {| self := self w; fs := fs w; stdout := stdout w ++ ranking |}) ∧
    length ranking = length pairs.
Proof.
  induction 1 as [|p pairs [Hn Hi] _ IH]; intros w; simpl.
  - exists []. by rewrite app_nil_r, world_eta.
  - destruct (item_in_range names p.2 Hn) as [fname Hf].
    destruct (item_in_range importances p.2 Hi) as [imp Him].
    run. rewrite Hf. simpl. rewrite Him. simpl.
    match goal with |- context [for_each pairs tt _ ?w1] =>
      destruct (IH w1) as (ranking & -> & Hlen) end.
    simpl. eexists (_ :: ranking). rewrite <- app_assoc. simpl. by rewrite Hlen.
Qed.

(** The names tested by [feature_importance] are those of the classes
    that carry importances. *)
Lemma tree_names name e :
  (name, e) ∈ estimators →
  bool_decide (name ∈ ["Random Forest"; "Decision Tree"]) = has_importances e.
Proof.
  unfold estimators. intros Hin.
  repeat (apply elem_of_cons in Hin as [Hin|Hin]; [by simplify_eq|]).
  by apply elem_of_nil in Hin.
Qed.


(** ** Frame rules *)

Lemma keeps_ret {A} R `{!PreOrder R} (a : A) : keeps R (mret a).
Proof. intros w. simpl. reflexivity. Qed.

Lemma keeps_raise {A} R `{!PreOrder R} (e : exn) : keeps R (raise (A := A) e).
Proof. intros w. simpl. reflexivity. Qed.

Lemma keeps_lift {A} R `{!PreOrder R} (r : result A) : keeps R (lift r).
Proof. intros w. simpl. reflexivity. Qed.

Lemma keeps_from_lib {A} R `{!PreOrder R} what (o : option A) :
  keeps R (from_lib what o).
Proof. destruct o; [by apply keeps_ret|by apply keeps_raise]. Qed.

Lemma keeps_get_self R `{!PreOrder R} : keeps R get_self.
Proof. intros w. simpl. reflexivity. Qed.

Lemma keeps_bind {A B} R `{!PreOrder R} (m : M A) (f : A → M B) :
  keeps R m → (∀ a, keeps R (f a)) → keeps R (m ≫= f).
Proof.
  intros Hm Hf w. specialize (Hm w). unfold mbind, M_bind.
  destruct (m w) as [[a|e] w1]; simpl in *; [|done].
  etrans; [exact Hm|apply Hf].
Qed.

Lemma keeps_try_except {A} R `{!PreOrder R} (body : M A) (handler : exn → M A) :
  keeps R body → (∀ e, keeps R (handler e)) → keeps R (try_except body handler).
Proof.
  intros Hb Hh w. specialize (Hb w). unfold try_except.
  destruct (body w) as [[a|e] w1]; simpl in *; [done|].
  etrans; [exact Hb|apply Hh].
Qed.

Lemma keeps_for_each {A B} R `{!PreOrder R} (xs : list A) (acc : B) (body : B → A → M B) :
  (∀ acc x, keeps R (body acc x)) → keeps R (for_each xs acc body).
Proof.
  intros Hbody. revert acc. induction xs as [|x xs IH]; intros acc; simpl.
  - by apply keeps_ret.
  - apply keeps_bind; [done|apply Hbody|done].
Qed.

#[local] Instance agree_preorder {B} (view : World → B) : PreOrder (agree view).
Proof.
  split; [by intros w|]. intros w1 w2 w3 H12 H23. unfold agree in *. congruence.
Qed.

Lemma keeps_read_file (R : World → World → Prop) `{!PreOrder R} path :
  keeps R (read_file path).
Proof. intros w. unfold read_file. case_match; simpl; reflexivity. Qed.

Lemma write_file_other path f p :
  p ≠ path → keeps (agree (λ w, fs w !! p)) (write_file path f).
Proof. intros Hp w. unfold agree. simpl. by rewrite lookup_insert_ne. Qed.

Lemma print_unseen {B} (view : World → B) line :
  (∀ w out, view {| self := self w; fs := fs w; stdout := out |} = view w) →
  keeps (agree view) (print line).
Proof. intros Hview w. unfold agree, print. simpl. apply Hview. Qed.

(** Walks through a method: binds, loops and branches by the rules
    above, the primitive steps by computation. *)
Ltac frame_step :=
  match goal with
  | |- keeps _ (mret _) => apply keeps_ret; apply _
  | |- keeps _ (raise _) => apply keeps_raise; apply _
  | |- keeps _ (lift _) => apply keeps_lift; apply _
  | |- keeps _ (from_lib _ _) => apply keeps_from_lib; apply _
  | |- keeps _ get_self => apply keeps_get_self; apply _
  | |- keeps _ (read_file _) => apply keeps_read_file; apply _
  | |- keeps _ (print _) => apply print_unseen; intros; reflexivity
  | |- keeps _ (set_models _) => intros ?; reflexivity
  | |- keeps _ (set_scaler _) => intros ?; reflexivity
  | |- keeps _ (set_best_model _) => intros ?; reflexivity
  | |- keeps _ (set_best_accuracy _) => intros ?; reflexivity
  | |- keeps _ (set_best_model_name _) => intros ?; reflexivity
  | |- keeps _ (set_self _) => intros ?; reflexivity
  | |- keeps _ (write_file _ _) =>
      first [intros ?; reflexivity | by apply write_file_other]
  | |- keeps _ (mbind _ _) => apply keeps_bind; [apply _| |intros ?]
  | |- keeps _ (try_except _ _) => apply keeps_try_except; [apply _| |intros ?]
  | |- keeps _ (for_each _ _ _) => apply keeps_for_each; [apply _|intros ? ?]
  | |- keeps _ (match ?x with _ => _ end) => destruct x
  | |- keeps _ _ => solve [auto]
  end.

Ltac frame := repeat frame_step.


(** ** What each method leaves alone *)

(** X1.  [load_data] never raises: it returns the table found at the
    dataset path, or the null result when there is no file or the file
    is no table, after printing the summary or the error; the trainer
    and the files are as before. *)
Theorem load_data_total (w : World) :
  load_data w =
    (Ok (match fs w !! dataset_path (self w) with
         | Some (Csv df) => Some df
         | _ => None
         end),
     {| self := self w; fs := fs w;
        stdout := stdout w ++
          load_log (dataset_path (self w)) (fs w !! dataset_path (self w)) |}).
Proof.
  unfold load_data, read_csv, load_log. run.
  destruct (fs w !! dataset_path (self w)) as [[df| |]|]; simpl;
    by rewrite <- ?app_assoc.
Qed.

(** X2.  Whatever its outcome, [preprocess_data] writes no file and
    changes nothing of the trainer but the scaler. *)
Theorem preprocess_data_frame (df : DataFrame) (w : World) :
  fs (preprocess_data df w).2 = fs w ∧
  dataset_path (self (preprocess_data df w).2) = dataset_path (self w) ∧
  models (self (preprocess_data df w).2) = models (self w) ∧
  best_model (self (preprocess_data df w).2) = best_model (self w) ∧
  best_accuracy (self (preprocess_data df w).2) = best_accuracy (self w) ∧
  best_model_name (self (preprocess_data df w).2) = best_model_name (self w).
Proof.
  assert (keeps (agree (λ w, (fs w, dataset_path (self w), models (self w),
                              best_model (self w), best_accuracy (self w),
                              best_model_name (self w))))
            (preprocess_data df)) as Hkeeps.
  { unfold preprocess_data, scaler_fit_transform, scaler_transform. frame. }
  specialize (Hkeeps w). unfold agree in Hkeeps. by simplify_eq.
Qed.


Lemma train_one_keeps Xtr Xte ytr yte results item :
  keeps (agree (λ w, (fs w, dataset_path (self w), scaler (self w), models (self w))))
    (train_one Xtr Xte ytr yte results item).
Proof. unfold train_one, model_fit, model_predict. frame. Qed.

(** X3.  Whatever its outcome, [train_models] writes no file and leaves
    the dataset path and the scaler of the trainer alone; when it
    raises, the registry of the trainer is still the old one. *)
Theorem train_models_frame Xtr Xte ytr yte (w : World) :
  fs (train_models Xtr Xte ytr yte w).2 = fs w ∧
  dataset_path (self (train_models Xtr Xte ytr yte w).2) = dataset_path (self w) ∧
  scaler (self (train_models Xtr Xte ytr yte w).2) = scaler (self w) ∧
  (∀ e, (train_models Xtr Xte ytr yte w).1 = Raise e →
        models (self (train_models Xtr Xte ytr yte w).2) = models (self w)).
Proof.
  assert (keeps (agree (λ w, (fs w, dataset_path (self w), scaler (self w))))
            (train_models Xtr Xte ytr yte)) as Hkeeps.
  { unfold train_models, train_one, model_fit, model_predict. frame. }
  specialize (Hkeeps w). unfold agree in Hkeeps. simplify_eq.
  repeat split; try done.
  pose proof (keeps_for_each _ estimators []
                (train_one Xtr Xte ytr yte) (train_one_keeps Xtr Xte ytr yte)) as Hloop.
  unfold train_models, mbind, M_bind, print, set_models, get_self, set_self, mret, M_ret.
  cbv beta iota zeta.
  match goal with |- context [for_each estimators [] _ ?w1] =>
    specialize (Hloop w1); destruct (for_each estimators [] _ w1) as [[res|e'] w2] end.
  - by intros e He.
  - intros e _. unfold agree in Hloop. simpl in *. by simplify_eq.
Qed.

(** X4.  [evaluate_models] never changes the trainer, and the only
    files it can touch are its two charts. *)
Theorem evaluate_models_frame (yte : list Q) (w : World) :
  self (evaluate_models yte w).2 = self w ∧
  (∀ p, p ∉ ["model_comparison.png"; "confusion_matrix.png"] →
        fs (evaluate_models yte w).2 !! p = fs w !! p).
Proof.
  split.
  - assert (keeps (agree self) (evaluate_models yte)) as Hkeeps
      by (unfold evaluate_models, get_best_model_name; frame).
    apply Hkeeps.
  - intros p Hp. apply not_elem_of_cons in Hp as [Hp1 Hp].
    apply not_elem_of_cons in Hp as [Hp2 _].
    assert (keeps (agree (λ w, fs w !! p)) (evaluate_models yte)) as Hkeeps
      by (unfold evaluate_models, get_best_model_name; frame).
    apply Hkeeps.
Qed.

(** X5.  [feature_importance] never changes the trainer, and the only
    file it can touch is its chart. *)
Theorem feature_importance_frame (X : DataFrame) (w : World) :
  self (feature_importance X w).2 = self w ∧
  (∀ p, p ≠ "feature_importance.png" →
        fs (feature_importance X w).2 !! p = fs w !! p).
Proof.
  split.
  - assert (keeps (agree self) (feature_importance X)) as Hkeeps
      by (unfold feature_importance, feature_importances_, get_best_model_name; frame).
    apply Hkeeps.
  - intros p Hp.
    assert (keeps (agree (λ w, fs w !! p)) (feature_importance X)) as Hkeeps
      by (unfold feature_importance, feature_importances_, get_best_model_name; frame).
    apply Hkeeps.
Qed.

(** X6.  [save_model] never changes the trainer and touches no file but
    the one it is given; with a best model whose name is missing it
    raises [AttributeError] before writing anything. *)
Theorem save_model_frame (filename : string) (w : World) :
  self (save_model filename w).2 = self w ∧
  (∀ p, p ≠ filename → fs (save_model filename w).2 !! p = fs w !! p) ∧
  (is_Some (best_model (self w)) → best_model_name (self w) = None →
   save_model filename w = (Raise (AttributeError "best_model_name"), w)).
Proof.
  split; [|split].
  - assert (keeps (agree self) (save_model filename)) as Hkeeps
      by (unfold save_model, get_best_model_name; frame).
    apply Hkeeps.
  - intros p Hp.
    assert (keeps (agree (λ w, fs w !! p)) (save_model filename)) as Hkeeps
      by (unfold save_model, get_best_model_name; frame).
    apply Hkeeps.
  - intros [m Hm] Hn. unfold save_model. run. rewrite Hm. run. by rewrite Hn.
Qed.

Lemma untouched_by_training (p : string) :
  keeps (agree (λ w, fs w !! p)) load_data ∧
  (∀ df, keeps (agree (λ w, fs w !! p)) (preprocess_data df)) ∧
  (∀ Xtr Xte ytr yte, keeps (agree (λ w, fs w !! p)) (train_models Xtr Xte ytr yte)) ∧
  (∀ a b c d e f g, keeps (agree (λ w, fs w !! p)) (predict_path a b c d e f g)).
Proof.
  repeat split; intros.
  - unfold load_data, read_csv. frame.
  - unfold preprocess_data, scaler_fit_transform, scaler_transform. frame.
  - unfold train_models, train_one, model_fit, model_predict. frame.
  - unfold predict_path, scaler_transform, model_predict. frame.
Qed.

(** X7.  Whatever its outcome, [main] touches no file but the four
    artifacts: the dataset, in particular, is never modified. *)
Theorem main_writes_only_artifacts (w : World) (p : string) :
  p ∉ artifacts → fs (main w).2 !! p = fs w !! p.
Proof.
  intros Hp. unfold artifacts in Hp.
  apply not_elem_of_cons in Hp as [Hp1 Hp]. apply not_elem_of_cons in Hp as [Hp2 Hp].
  apply not_elem_of_cons in Hp as [Hp3 Hp]. apply not_elem_of_cons in Hp as [Hp4 _].
  destruct (untouched_by_training p) as (Hload & Hprep & Htrain & Hpredict).
  assert (∀ y, keeps (agree (λ w, fs w !! p)) (evaluate_models y)) as Heval
    by (intros y; unfold evaluate_models, get_best_model_name; frame).
  assert (∀ X, keeps (agree (λ w, fs w !! p)) (feature_importance X)) as Hfeat
    by (intros X; unfold feature_importance, feature_importances_, get_best_model_name;
        frame).
  assert (keeps (agree (λ w, fs w !! p)) (save_model "sdn_best_model.pkl")) as Hsave
    by (unfold save_model, get_best_model_name; frame).
  assert (keeps (agree (λ w, fs w !! p)) main) as Hkeeps.
  { unfold main, insufficient_data, pipeline, get_best_model_name.
    frame. }
  apply Hkeeps.
Qed.

(** ** More on the training loop *)

Lemma zip_entries_accuracy (names : list string) (rs : list ModelResult) (P : Q → Prop) :
  length names = length rs →
  Forall (λ e, P (r_accuracy e.2)) (zip names rs) → Forall (λ r, P (r_accuracy r)) rs.
Proof.
  revert rs. induction names as [|n names IH]; intros [|r rs] Hlen Hall;
    simplify_eq/=; [done|].
  inversion Hall; simplify_eq. constructor; [done|by apply IH].
Qed.

(** X8.  How [train_models] picks the best model, on any trainer.
    Either no variant scores strictly above the running best it found,
    and then best model, name and accuracy stay what they were (also
    when they come from an earlier run or from [load_model]); or the
    best model is the first variant, in the order of the dictionary,
    whose accuracy is maximal, and that accuracy is strictly above the
    former running best. *)
Theorem train_models_selection Xtr Xte ytr yte rs (w : World) :
  Forall2 (trained Xtr Xte ytr yte) estimators rs →
  (Forall (λ r, (r_accuracy r <= best_accuracy (self w))%Q) rs ∧
   best_model (self (train_models Xtr Xte ytr yte w).2) = best_model (self w) ∧
   best_model_name (self (train_models Xtr Xte ytr yte w).2) = best_model_name (self w) ∧
   best_accuracy (self (train_models Xtr Xte ytr yte w).2) = best_accuracy (self w)) ∨
  (∃ i name r,
     estimators.*1 !! i = Some name ∧ rs !! i = Some r ∧
     best_model (self (train_models Xtr Xte ytr yte w).2) = Some (r_model r) ∧
     best_model_name (self (train_models Xtr Xte ytr yte w).2) = Some name ∧
     best_accuracy (self (train_models Xtr Xte ytr yte w).2) = r_accuracy r ∧
     (best_accuracy (self w) < r_accuracy r)%Q ∧
     (∀ j r', (j < i)%nat → rs !! j = Some r' → (r_accuracy r' < r_accuracy r)%Q) ∧
     (∀ j r', rs !! j = Some r' → (r_accuracy r' <= r_accuracy r)%Q)).
Proof.
  intros Hrs. rewrite (train_models_trained _ _ _ _ _ _ Hrs).
  unfold with_models; cbn [snd self best_model best_model_name best_accuracy].
  assert (Hlen : length estimators.*1 = length rs)
    by (rewrite length_fmap; by eapply Forall2_length).
  destruct (keep_best_fold (zip estimators.*1 rs) (self w))
    as [[Hall ->]|(i & [name r] & Hi & Hm & Hn & Hacc & Hlt & Hfirst & Hmax)].
  - left. split; [|done].
    by apply (zip_entries_accuracy estimators.*1 rs
                (λ a, (a <= best_accuracy (self w))%Q)).
  - right. apply lookup_zip_Some in Hi as [Hname Hr]. exists i, name, r.
    repeat split; try done.
    + intros j r' Hj Hr'.
      destruct (lookup_lt_is_Some_2 estimators.*1 j) as [n' Hn'].
      { rewrite Hlen. by eapply lookup_lt_Some. }
      apply (Hfirst j (n', r') Hj). by apply lookup_zip_Some.
    + intros j r' Hr'.
      destruct (lookup_lt_is_Some_2 estimators.*1 j) as [n' Hn'].
      { rewrite Hlen. by eapply lookup_lt_Some. }
      apply (Hmax j (n', r')). by apply lookup_zip_Some.
Qed.

(** X9.  Training twice on the same partitions changes nothing of the
    selection: the second run finds every accuracy again, none strictly
    above the running best, and keeps the best model, name and accuracy
    of the first run. *)
Theorem train_models_twice Xtr Xte ytr yte rs (w : World) :
  Forall2 (trained Xtr Xte ytr yte) estimators rs →
  best_model (self (train_models Xtr Xte ytr yte (train_models Xtr Xte ytr yte w).2).2) =
    best_model (self (train_models Xtr Xte ytr yte w).2) ∧
  best_model_name (self (train_models Xtr Xte ytr yte (train_models Xtr Xte ytr yte w).2).2) =
    best_model_name (self (train_models Xtr Xte ytr yte w).2) ∧
  best_accuracy (self (train_models Xtr Xte ytr yte (train_models Xtr Xte ytr yte w).2).2) =
    best_accuracy (self (train_models Xtr Xte ytr yte w).2).
Proof.
  intros Hrs.
  rewrite (train_models_trained _ _ _ _ _ (train_models Xtr Xte ytr yte w).2 Hrs).
  rewrite (train_models_trained _ _ _ _ _ w Hrs).
  unfold with_models; cbn [snd self best_model best_model_name best_accuracy].
  set (entries := zip estimators.*1 rs). set (t1 := foldl keep_best (self w) entries).
  assert (Hbound : Forall (λ e, (r_accuracy e.2 <= best_accuracy t1)%Q) entries).
  { unfold t1. destruct (keep_best_fold entries (self w))
      as [[Hall ->]|(i & e & Hi & _ & _ & -> & _ & _ & Hmax)]; [done|].
    apply Forall_lookup. intros j e' He'. by eapply Hmax. }
  assert (Hframe : ∀ t v, foldl keep_best (with_models t v) entries =
                          with_models (foldl keep_best t entries) v).
  { clear. intros t v. revert t. induction entries as [|e es IH]; intros t; simpl; [done|].
    rewrite <- IH. f_equal. unfold keep_best, with_models. simpl. by case_match. }
  fold (with_models t1 entries). rewrite Hframe.
  destruct (keep_best_fold entries t1)
    as [[_ ->]|(i & e & Hi & _ & _ & _ & Hlt & _)]; [done|exfalso].
  apply (Forall_lookup_1 _ _ _ _ Hbound) in Hi.
  by eapply Qlt_irrefl, Qlt_le_trans.
Qed.

Lemma count_matches_le (y_true y_pred : list Q) :
  (count_matches y_true y_pred ≤ length y_true)%nat.
Proof.
  unfold count_matches. etrans; [apply length_filter|].
  rewrite length_zip. lia.
Qed.

Lemma accuracy_score_bounds (y_true y_pred : list Q) a :
  accuracy_score y_true y_pred = Ok a → (0 <= a)%Q ∧ (a <= 1)%Q.
Proof.
  unfold accuracy_score. case_match; [|done]. intros [= <-].
  pose proof (count_matches_le y_true y_pred) as Hle.
  rewrite !Qred_correct. unfold Qle. simpl. split; [lia|].
  destruct (length y_true) as [|n] eqn:Hn; [simpl; lia|].
  rewrite Z.mul_1_r. replace (Z.pos (Pos.of_nat (S n))) with (Z.of_nat (S n)); [lia|].
  by rewrite <- Pos.of_nat_succ, Zpos_P_of_succ_nat, <- Nat2Z.inj_succ.
Qed.

Lemma train_one_inv Xtr Xte ytr yte results item res (w w' : World) :
  train_one Xtr Xte ytr yte results item w = (Ok res, w') →
  ∃ r, trained Xtr Xte ytr yte item r.
Proof.
  unfold train_one, model_fit, model_predict. run.
  destruct (lib_fit item.2 Xtr ytr) as [f|] eqn:Hfit; simpl; [|done].
  destruct (lib_predict item.2 f Xte) as [p|] eqn:Hpred; simpl; [|done].
  destruct (accuracy_score yte p) as [a|] eqn:Hacc; simpl; [|done].
  intros _.
  by exists {| r_model := {| estimator := item.2; fitted := f |};
               r_accuracy := a; r_predictions := p |}.
Qed.

Lemma for_each_train_inv Xtr Xte ytr yte items :
  ∀ results res (w w' : World),
  for_each items results (train_one Xtr Xte ytr yte) w = (Ok res, w') →
  ∃ rs, Forall2 (trained Xtr Xte ytr yte) items rs.
Proof.
  induction items as [|item items IH]; intros results res w w' Hrun; simpl in Hrun.
  - by exists [].
  - unfold mbind, M_bind in Hrun.
    destruct (train_one Xtr Xte ytr yte results item w) as [[res1|e] w1] eqn:Hone;
      [|done].
    apply train_one_inv in Hone as [r Hr]. apply IH in Hrun as [rs Hrs].
    exists (r :: rs). by constructor.
Qed.

(** A run of [train_models] that returns has trained every variant. *)
Lemma train_models_inv Xtr Xte ytr yte results (w w' : World) :
  train_models Xtr Xte ytr yte w = (Ok results, w') →
  ∃ rs, Forall2 (trained Xtr Xte ytr yte) estimators rs.
Proof.
  unfold train_models, mbind, M_bind, print, set_models, get_self, set_self, mret, M_ret.
  cbv beta iota zeta.
  match goal with |- context [for_each estimators [] _ ?w1] =>
    destruct (for_each estimators [] (train_one Xtr Xte ytr yte) w1)
      as [[res|e] w2] eqn:Hloop end; [|done].
  intros _. by eapply for_each_train_inv.
Qed.

(** X10.  When [train_models] returns, the registry it returns is the
    one it stored; it lists the four variants under their names, in the
    order Random Forest, K-Nearest Neighbors, Decision Tree, SVM; each
    entry holds a model of the class of its name, as many predictions as
    there are test labels, and an accuracy between 0 and 1. *)
Theorem train_models_registry Xtr Xte ytr yte results (w w' : World) :
  train_models Xtr Xte ytr yte w = (Ok results, w') →
  models (self w') = results ∧
  results.*1 = ["Random Forest"; "K-Nearest Neighbors"; "Decision Tree"; "SVM"] ∧
  Forall (λ e, (e.1, estimator (r_model e.2)) ∈ estimators ∧
               length (r_predictions e.2) = length yte ∧
               (0 <= r_accuracy e.2)%Q ∧ (r_accuracy e.2 <= 1)%Q) results.
Proof.
  intros Hrun. destruct (train_models_inv _ _ _ _ _ _ _ Hrun) as [rs Hrs].
  rewrite (train_models_trained _ _ _ _ _ _ Hrs) in Hrun. simplify_eq/=.
  split; [done|]. split.
  { apply Forall2_length in Hrs.
    by destruct rs as [|r1 [|r2 [|r3 [|r4 [|]]]]]; simplify_eq/=. }
  pose proof (trained_entries _ _ _ _ _ _ Hrs) as Hnamed.
  assert (Hscored : Forall (λ e : string * ModelResult,
                       length (r_predictions e.2) = length yte ∧
                       (0 <= r_accuracy e.2)%Q ∧ (r_accuracy e.2 <= 1)%Q)
                      (zip estimators.*1 rs)).
  { clear Hnamed. generalize (estimators.*1). intros names.
    revert names. induction Hrs as [|item r items rs' (_ & _ & _ & Hacc) _ IH];
      intros [|n names]; simpl; try done.
    constructor; [|apply IH]. simpl. split.
    - unfold accuracy_score in Hacc. case_match; [|done].
      symmetry. by apply Nat.eqb_eq.
    - by eapply accuracy_score_bounds. }
  rewrite Forall_forall in Hnamed, Hscored. apply Forall_forall. intros e He.
  split; [by apply Hnamed|by apply Hscored].
Qed.


(** ** More on evaluation, persistence and prediction *)

Lemma dict_get_lookup {V} (d : list (string * V)) i k v :
  NoDup d.*1 → d !! i = Some (k, v) → dict_get d k = Some v.
Proof.
  revert i. induction d as [|[k' v'] d IH]; intros i Hnd Hi; [done|].
  apply NoDup_cons in Hnd as [Hk' Hnd]. destruct i as [|i]; simplify_eq/=.
  - by rewrite String.eqb_refl.
  - destruct (String.eqb k k') eqn:Heq.
    + apply String.eqb_eq in Heq as ->. exfalso. apply Hk'.
      apply list_elem_of_fmap. exists (k', v). split; [done|].
      by eapply list_elem_of_lookup_2.
    + by eapply IH.
Qed.

Lemma estimators_names_NoDup : NoDup estimators.*1.
Proof.
  unfold estimators. simpl.
  repeat (apply NoDup_cons; split;
          [intros Hin; repeat (apply elem_of_cons in Hin as [Hin|Hin]; [done|]);
           by apply elem_of_nil in Hin|]).
  apply NoDup_nil_2.
Qed.

(** X11.  [evaluate_models] draws the comparison chart before it looks
    at the best model.  On a trainer without a best-model name it raises
    [AttributeError], and with a name that is no key of the registry it
    raises [KeyError]; in both cases [model_comparison.png] has been
    written and nothing else. *)
Theorem evaluate_models_fails_after_chart (yte : list Q) (w : World) :
  (best_model_name (self w) = None ∨
   ∃ n, best_model_name (self w) = Some n ∧ dict_get (models (self w)) n = None) →
  (evaluate_models yte w).1 =
    Raise (match best_model_name (self w) with
           | None => AttributeError "best_model_name"
           | Some n => KeyError [n]
           end) ∧
  fs (evaluate_models yte w).2 =
    <["model_comparison.png" := Png (comparison_chart (self w))]> (fs w).
Proof.
  intros [Hn|(n & Hn & Hget)]; unfold evaluate_models, comparison_chart; run;
    rewrite Hn; simpl; [done|]. by rewrite Hget.
Qed.

(** X12.  Training and evaluating compose: on a trainer whose running
    best is the initial 0.0, once [train_models] has trained the four
    variants and one of them scores above 0.0, [evaluate_models] finds
    the best model in the registry, returns normally and has written
    both charts. *)
Theorem evaluate_after_training Xtr Xte ytr yte rs (w : World) r :
  best_accuracy (self w) = 0%Q →
  Forall2 (trained Xtr Xte ytr yte) estimators rs →
  r ∈ rs → (0 < r_accuracy r)%Q →
  ∃ chart matrix,
    (evaluate_models yte (train_models Xtr Xte ytr yte w).2).1 = Ok tt ∧
    fs (evaluate_models yte (train_models Xtr Xte ytr yte w).2).2 =
      <["confusion_matrix.png" := Png matrix]>
        (<["model_comparison.png" := Png chart]> (fs w)).
Proof.
  intros Ha Hrs Hr Hpos. rewrite (train_models_trained _ _ _ _ _ _ Hrs).
  cbn [snd].
  assert (Hlen : length estimators.*1 = length rs)
    by (rewrite length_fmap; by eapply Forall2_length).
  destruct (keep_best_fold (zip estimators.*1 rs) (self w))
    as [[Hall _]|(i & [name r'] & Hi & _ & Hn & _)].
  { exfalso. rewrite Ha in Hall.
    apply (zip_entries_accuracy estimators.*1 rs (λ a, (a <= 0)%Q) Hlen) in Hall.
    rewrite Forall_forall in Hall. apply Hall in Hr.
    by eapply Qlt_irrefl, Qlt_le_trans. }
  assert (Hget : dict_get (zip estimators.*1 rs) name = Some r').
  { eapply dict_get_lookup; [|exact Hi]. rewrite fst_zip by lia.
    apply estimators_names_NoDup. }
  unfold evaluate_models. run. rewrite Hn. simpl. rewrite Hget. simpl. eauto.
Qed.

(** X13.  [load_model] is not all-or-nothing: from an artifact that
    holds a model but no scaler it raises [KeyError] on the scaler after
    it has already replaced the best model, so the trainer is left with
    the new model beside its old scaler, name and accuracy. *)
Theorem load_model_partial (filename : string) (w : World) d m :
  fs w !! filename = Some (Pickle d) →
  d !! "model" = Some (VModel m) →
  d !! "scaler" = None →
  load_model filename w =
    (Raise (KeyError ["scaler"]),
     {| self := with_best_model (self w) m; fs := fs w; stdout := stdout w |}).
Proof.
  intros Hf Hm Hs. unfold load_model, joblib_load, dict_item, with_best_model. run.
  rewrite Hf. simpl. rewrite Hm. simpl. by rewrite Hs.
Qed.

Lemma bundle_unique (t : SDNMLTrainer) m n (d : gmap string Value) :
  dom d = ({["model"; "scaler"; "model_name"; "accuracy"]} : gset string) →
  d !! "model" = Some (VModel m) →
  d !! "scaler" = Some (VScaler (scaler t)) →
  d !! "model_name" = Some (VStr n) →
  d !! "accuracy" = Some (VFloat (best_accuracy t)) →
  bundle t m n = d.
Proof.
  intros Hdom Hm Hs Hn Ha. apply map_eq. intros k. unfold bundle.
  destruct (decide (k = "accuracy")) as [->|?]; [by rewrite lookup_insert_eq|].
  rewrite lookup_insert_ne by done.
  destruct (decide (k = "model_name")) as [->|?]; [by rewrite lookup_insert_eq|].
  rewrite lookup_insert_ne by done.
  destruct (decide (k = "scaler")) as [->|?]; [by rewrite lookup_insert_eq|].
  rewrite lookup_insert_ne by done.
  destruct (decide (k = "model")) as [->|?]; [by rewrite lookup_insert_eq|].
  rewrite lookup_insert_ne by done. rewrite lookup_empty. symmetry.
  apply not_elem_of_dom. rewrite Hdom.
  rewrite !not_elem_of_union, !not_elem_of_singleton. done.
Qed.

(** X14.  Loading an artifact that holds exactly the four entries and
    saving to the same path writes the same artifact again: the files
    are as before. *)
Theorem load_save_roundtrip (filename : string) (w : World) d m s n a :
  fs w !! filename = Some (Pickle d) →
  dom d = ({["model"; "scaler"; "model_name"; "accuracy"]} : gset string) →
  d !! "model" = Some (VModel m) →
  d !! "scaler" = Some (VScaler s) →
  d !! "model_name" = Some (VStr n) →
  d !! "accuracy" = Some (VFloat a) →
  (save_model filename (load_model filename w).2).1 = Ok tt ∧
  fs (save_model filename (load_model filename w).2).2 = fs w.
Proof.
  intros Hf Hdom Hm Hs Hn Ha.
  rewrite (load_model_bundle _ _ _ _ _ _ _ Hf Hm Hs Hn Ha). cbn [snd].
  erewrite save_model_trained; [|done..]. cbn [fst snd fs self]. split; [done|].
  rewrite (bundle_unique _ m n d); try done. by apply insert_id.
Qed.

(** X15.  A trainer that is trained without [preprocess_data] cannot
    predict: after [train_models] on a fresh trainer has selected a best
    model, the scaler is still the unfitted one of [__init__] and
    [predict_path] raises [NotFittedError], changing nothing. *)
Theorem predict_path_needs_fitted_scaler Xtr Xte ytr yte rs path r
    (a b c d e f g : Q) (w : World) :
  self w = init path →
  Forall2 (trained Xtr Xte ytr yte) estimators rs →
  r ∈ rs → (0 < r_accuracy r)%Q →
  predict_path a b c d e f g (train_models Xtr Xte ytr yte w).2 =
    (Raise NotFittedError, (train_models Xtr Xte ytr yte w).2).
Proof.
  intros Hw Hrs Hr Hpos. rewrite (train_models_trained _ _ _ _ _ _ Hrs). cbn [snd].
  assert (Hlen : length estimators.*1 = length rs)
    by (rewrite length_fmap; by eapply Forall2_length).
  destruct (keep_best_fold_frame (zip estimators.*1 rs) (self w)) as (_ & _ & Hscaler).
  destruct (keep_best_fold (zip estimators.*1 rs) (self w))
    as [[Hall _]|(i & e' & _ & Hm & _)].
  { exfalso. rewrite Hw in Hall. simpl in Hall.
    apply (zip_entries_accuracy estimators.*1 rs (λ a, (a <= 0)%Q) Hlen) in Hall.
    rewrite Forall_forall in Hall. apply Hall in Hr.
    by eapply Qlt_irrefl, Qlt_le_trans. }
  unfold predict_path, scaler_transform. run. rewrite Hm. simpl.
  rewrite Hscaler, Hw. simpl. reflexivity.
Qed.


(** ** More on preprocessing *)

Lemma scale_row_length (mu sc r : list Q) :
  length sc = length mu → length r = length mu →
  length (scale_row mu sc r) = length mu.
Proof.
  revert sc r. induction mu as [|m mu IH]; intros [|s sc] [|x r] Hsc Hr;
    simplify_eq/=; [done|]. f_equal. by apply IH.
Qed.

Lemma StandardScaler_fit_shape X s :
  StandardScaler_fit X = Ok s →
  X ≠ [] ∧ ∃ mu var sc, s = FittedScaler mu var sc ∧
    length var = length mu ∧ length sc = length mu.
Proof.
  unfold StandardScaler_fit. destruct X as [|r X]; [done|]. intros [= <-].
  split; [done|]. cbv zeta. eexists _, _, _. split; [done|].
  by rewrite !length_map.
Qed.

Lemma StandardScaler_transform_shape mu var sc X X' :
  length sc = length mu →
  StandardScaler_transform (FittedScaler mu var sc) X = Ok X' →
  X ≠ [] ∧ length X' = length X ∧
  Forall (λ r, length r = length mu) X ∧ Forall (λ r, length r = length mu) X'.
Proof.
  intros Hsc. unfold StandardScaler_transform. destruct X as [|r0 X0]; [done|].
  remember (r0 :: X0) as X eqn:HX.
  destruct (forallb _ X) eqn:Hall; [|done]. intros [= <-].
  assert (Hrows : Forall (λ r, length r = length mu) X).
  { apply Forall_forall. intros r' Hr'. rewrite forallb_forall in Hall.
    apply Nat.eqb_eq, Hall. by apply list_elem_of_In. }
  split; [by subst|]. split; [by rewrite length_map|]. split; [done|].
  apply Forall_forall. intros r' Hr'.
  apply list_elem_of_In, in_map_iff in Hr' as (r & <- & Hin).
  apply scale_row_length; [done|]. rewrite Forall_forall in Hrows.
  by apply Hrows, list_elem_of_In.
Qed.

Lemma getitem_list_columns df cols X :
  getitem_list df cols = Ok X → columns X = cols ∧ missing_columns df cols = [].
Proof. unfold getitem_list. case_match; [|done]. by intros [= <-]. Qed.

(** X16.  What a successful [preprocess_data] hands over: both
    partitions carry the seven feature columns in the order of the
    script, whatever the order and the other columns of the table; both
    are non-empty; the scaler is fitted, with one mean, variance and
    scale per feature; and every row of the partitions and of their
    scaled copies has that many cells, the scaled copies having as many
    rows as the partitions. *)
Theorem preprocess_data_shapes (df : DataFrame) (w w' : World) (p : Preprocessed) :
  preprocess_data df w = (Ok p, w') →
  columns (X_train p) = feature_cols ∧ columns (X_test p) = feature_cols ∧
  rows (X_train p) ≠ [] ∧ rows (X_test p) ≠ [] ∧
  length (X_train_scaled p) = length (rows (X_train p)) ∧
  length (X_test_scaled p) = length (rows (X_test p)) ∧
  ∃ mu var sc, scaler (self w') = FittedScaler mu var sc ∧
    length var = length mu ∧ length sc = length mu ∧
    Forall (λ r, length r = length mu) (rows (X_train p)) ∧
    Forall (λ r, length r = length mu) (rows (X_test p)) ∧
    Forall (λ r, length r = length mu) (X_train_scaled p) ∧
    Forall (λ r, length r = length mu) (X_test_scaled p).
Proof.
  intros Hrun. unfold preprocess_data, scaler_fit_transform, scaler_transform in Hrun.
  run.
  destruct (getitem_list df feature_cols) as [X|] eqn:HX; simplify_eq/=.
  destruct (getitem df target_col) as [y|] eqn:Hy; simplify_eq/=.
  destruct (lib_train_test_split (rows X) y (1 # 5) 42 y)
    as [[[[Xtr Xte] ytr] yte]|] eqn:Hsplit; simplify_eq/=.
  destruct (StandardScaler_fit Xtr) as [s|] eqn:Hfit; simplify_eq/=.
  destruct (StandardScaler_transform s Xtr) as [Xtr'|] eqn:Htr; simplify_eq/=.
  destruct (StandardScaler_transform s Xte) as [Xte'|] eqn:Hte; simplify_eq/=.
  apply getitem_list_columns in HX as [HX _].
  apply StandardScaler_fit_shape in Hfit as (_ & mu & var & sc & -> & Hvar & Hsc).
  apply (StandardScaler_transform_shape _ _ _ _ _ Hsc) in Htr as (? & ? & ? & ?).
  apply (StandardScaler_transform_shape _ _ _ _ _ Hsc) in Hte as (? & ? & ? & ?).
  repeat split; try done. by exists mu, var, sc.
Qed.


(** ** The whole run *)

Lemma bind_inv {A B} (m : M A) (f : A → M B) (w w' : World) b :
  (m ≫= f) w = (Ok b, w') → ∃ a w1, m w = (Ok a, w1) ∧ f a w1 = (Ok b, w').
Proof. unfold mbind, M_bind. destruct (m w) as [[a|e] w1]; [eauto|done]. Qed.

Lemma bind_raise {A B} (m : M A) (f : A → M B) (w w' : World) e :
  m w = (Raise e, w') → (m ≫= f) w = (Raise e, w').
Proof. unfold mbind, M_bind. by intros ->. Qed.

Lemma preprocess_data_keeps df :
  keeps (agree (λ w, (fs w, best_model (self w), best_accuracy (self w),
                      best_model_name (self w))))
    (preprocess_data df).
Proof. unfold preprocess_data, scaler_fit_transform, scaler_transform. frame. Qed.

Lemma evaluate_models_ok_inv yte (w w' : World) :
  evaluate_models yte w = (Ok tt, w') →
  ∃ n r matrix, best_model_name (self w) = Some n ∧
    dict_get (models (self w)) n = Some r ∧
    self w' = self w ∧
    fs w' = <["confusion_matrix.png" := Png matrix]>
              (<["model_comparison.png" := Png (comparison_chart (self w))]> (fs w)).
Proof.
  unfold evaluate_models, comparison_chart. run.
  destruct (best_model_name (self w)) as [n|]; simpl; [|done].
  destruct (dict_get (models (self w)) n) as [r|] eqn:Hget; simpl; [|done].
  intros [= <-]. simpl. by eexists _, _, _.
Qed.

Lemma feature_importance_keeps X p :
  p ≠ "feature_importance.png" →
  keeps (agree (λ w, (self w, fs w !! p))) (feature_importance X).
Proof.
  intros Hp. unfold feature_importance, feature_importances_, get_best_model_name.
  assert (∀ f, keeps (agree (λ w, (self w, fs w !! p)))
                 (write_file "feature_importance.png" f)) as Hwrite.
  { intros f w. unfold agree. simpl. by rewrite lookup_insert_ne. }
  frame.
Qed.

Lemma feature_importance_ok_written X (w w' : World) n :
  feature_importance X w = (Ok tt, w') →
  best_model_name (self w) = Some n →
  bool_decide (n ∈ ["Random Forest"; "Decision Tree"]) = true →
  ∃ fig, fs w' !! "feature_importance.png" = Some (Png fig).
Proof.
  intros Hrun Hn Htree. unfold feature_importance in Hrun.
  apply bind_inv in Hrun as (n' & w1 & Hname & Hrun).
  assert (n' = n) as ->.
  { unfold get_best_model_name in Hname. run. rewrite Hn in Hname. by simplify_eq/=. }
  rewrite Htree in Hrun. cbv zeta in Hrun.
  repeat (apply bind_inv in Hrun as (? & ? & ? & Hrun); cbv beta zeta in Hrun).
  match goal with
  | Hw : write_file _ (Png ?fig) ?wk = (Ok _, ?wl) |- _ =>
      exists fig; unfold write_file in Hw; unfold print in Hrun; simplify_eq/=
  end.
  apply lookup_insert_eq.
Qed.

Lemma pipeline_inv df (w w' : World) :
  pipeline df w = (Ok tt, w') →
  ∃ p w1 results w2 w3 w4 w5,
    preprocess_data df w = (Ok p, w1) ∧
    train_models (X_train_scaled p) (X_test_scaled p) (y_train p) (y_test p) w1
      = (Ok results, w2) ∧
    evaluate_models (y_test p) w2 = (Ok tt, w3) ∧
    feature_importance (X_train p) w3 = (Ok tt, w4) ∧
    save_model "sdn_best_model.pkl" w4 = (Ok tt, w5) ∧
    self w' = self w5 ∧ fs w' = fs w5.
Proof.
  intros Hrun. unfold pipeline in Hrun.
  apply bind_inv in Hrun as (p & w1 & Hprep & Hrun).
  apply bind_inv in Hrun as (results & w2 & Htrain & Hrun).
  apply bind_inv in Hrun as ([] & w3 & Heval & Hrun).
  apply bind_inv in Hrun as ([] & w4 & Hfeat & Hrun).
  apply bind_inv in Hrun as ([] & w5 & Hsave & Hrun).
  cbv beta in Hrun.
  assert (self w' = self w5 ∧ fs w' = fs w5) as [Hself Hfs].
  { assert (∀ a b c d e f g, keeps (agree (λ w, (self w, fs w)))
              (predict_path a b c d e f g)) as Hpredict.
    { intros a b c d e f g w0. unfold agree.
      by destruct (predict_path_frame a b c d e f g w0) as [-> ->]. }
    match type of Hrun with ?m ?w0 = _ =>
      assert (keeps (agree (λ w, (self w, fs w))) m) as Hkeeps
        by (unfold get_best_model_name; frame);
      specialize (Hkeeps w0) end.
    rewrite Hrun in Hkeeps. unfold agree in Hkeeps. by simplify_eq/=. }
  by exists p, w1, results, w2, w3, w4, w5.
Qed.

(** X17.  What a completed run of [main] guarantees.  If [main] returns
    normally from a dataset of at least ten rows, then the trainer ends
    with a best model stored under the name of its class, with an
    accuracy above 0.0; [sdn_best_model.pkl] holds exactly the bundle of
    that trainer; both charts exist; and the importance chart exists
    when the best model is the forest or the tree. *)
Theorem main_completed (w w' : World) df :
  fs w !! "sdn_dataset.csv" = Some (Csv df) →
  (10 ≤ len df)%nat →
  main w = (Ok tt, w') →
  ∃ m name,
    best_model (self w') = Some m ∧
    best_model_name (self w') = Some name ∧
    (name, estimator m) ∈ estimators ∧
    (0 < best_accuracy (self w'))%Q ∧
    fs w' !! "sdn_best_model.pkl" = Some (Pickle (bundle (self w') m name)) ∧
    (∃ fig, fs w' !! "model_comparison.png" = Some (Png fig)) ∧
    (∃ fig, fs w' !! "confusion_matrix.png" = Some (Png fig)) ∧
    (has_importances (estimator m) = true →
     ∃ fig, fs w' !! "feature_importance.png" = Some (Png fig)).
Proof.
  intros Hfile Hlen Hrun.
  unfold main, load_data, read_csv in Hrun. run. rewrite Hfile in Hrun. simpl in Hrun.
  apply Nat.ltb_ge in Hlen. rewrite Hlen in Hrun.
  apply pipeline_inv in Hrun
    as (p & w1 & results & w2 & w3 & w4 & w5 & Hprep & Htrain & Heval & Hfeat & Hsave
        & Hself & Hfs).
  (* preprocessing leaves the selection fields of the fresh trainer *)
  pose proof (preprocess_data_keeps df) as Hk. match type of Hprep with
    preprocess_data df ?w0 = _ => specialize (Hk w0) end.
  rewrite Hprep in Hk. unfold agree in Hk. simpl in Hk.
  injection Hk as Hfs1 Hm1 Ha1 Hn1.
  (* training *)
  destruct (train_models_inv _ _ _ _ _ _ _ Htrain) as [rs Hrs].
  pose proof (train_models_trained _ _ _ _ _ w1 Hrs) as Heq.
  pose proof (trained_entries _ _ _ _ _ _ Hrs) as Hentries.
  set (entries := zip estimators.*1 rs) in *.
  pose proof (keep_best_fold entries (self w1)) as Hsel.
  set (t2 := foldl keep_best (self w1) entries) in *.
  assert (Hnamed : named_after_class t2).
  { apply keep_best_fold_named; [|done].
    unfold named_after_class. by rewrite Hm1, Hn1. }
  match type of Heq with _ = (_, ?W) => assert (w2 = W) as Hw2 by congruence end.
  (* evaluation tells that a name was set *)
  apply evaluate_models_ok_inv in Heval
    as (n & r & matrix & Hn2 & _ & Hself3 & Hfs3).
  rewrite Hw2 in Hn2, Hself3, Hfs3. unfold with_models in Hn2, Hself3.
  cbn [self fs best_model_name] in Hn2, Hself3, Hfs3.
  destruct Hsel as [[_ Hsame]|(i & e & _ & Hm & Hn & Hacc & Hlt & _)].
  { rewrite Hsame, Hn1 in Hn2. done. }
  rewrite Hn in Hn2. injection Hn2 as <-.
  unfold named_after_class in Hnamed. rewrite Hm, Hn in Hnamed.
  (* the report and the artifact *)
  pose proof (feature_importance_keeps (X_train p) "model_comparison.png"
                ltac:(done) w3) as Hk4a.
  pose proof (feature_importance_keeps (X_train p) "confusion_matrix.png"
                ltac:(done) w3) as Hk4b.
  rewrite Hfeat in Hk4a, Hk4b. unfold agree in Hk4a, Hk4b. simpl in Hk4a, Hk4b.
  injection Hk4a as Hself4 Hmc. injection Hk4b as _ Hcm.
  assert (Hm4 : best_model (self w4) = Some (r_model e.2))
    by (by rewrite Hself4, Hself3).
  assert (Hn4 : best_model_name (self w4) = Some e.1)
    by (by rewrite Hself4, Hself3).
  rewrite (save_model_trained _ _ _ _ Hm4 Hn4) in Hsave. injection Hsave as Hw5.
  exists (r_model e.2), e.1.
  rewrite Hself, Hfs, <- Hw5. simpl.
  split; [done|]. split; [done|]. split; [done|].
  split. { rewrite Hself4, Hself3. simpl. rewrite Hacc. by rewrite Ha1 in Hlt. }
  split; [apply lookup_insert_eq|].
  split. { rewrite lookup_insert_ne by done. rewrite Hmc, Hfs3.
           rewrite lookup_insert_ne by done. rewrite lookup_insert_eq. eauto. }
  split. { rewrite lookup_insert_ne by done. rewrite Hcm, Hfs3.
           rewrite lookup_insert_eq. eauto. }
  intros Hcap. rewrite lookup_insert_ne by done.
  eapply feature_importance_ok_written; [exact Hfeat| |].
  - by rewrite Hself3.
  - by rewrite (tree_names _ _ Hnamed).
Qed.


Lemma preprocess_data_key_error df (w : World) :
  missing_columns df (feature_cols ++ [target_col]) ≠ [] →
  ∃ miss, miss ≠ [] ∧
    preprocess_data df w =
      (Raise (KeyError miss),
       {| self := self w; fs := fs w;
          stdout := stdout w ++ [nl +:+ "Preprocessing data..."] |}).
Proof.
  intros Hmiss. rewrite missing_columns_app in Hmiss.
  destruct (missing_columns df feature_cols) as [|c0 rest] eqn:Hfeat.
  - exists [target_col]. split; [done|]. simpl in Hmiss.
    unfold preprocess_data, getitem_list. run. rewrite Hfeat. simpl.
    by rewrite (getitem_missing _ _ Hmiss).
  - exists (c0 :: rest). split; [done|].
    unfold preprocess_data, getitem_list. run. by rewrite Hfeat.
Qed.

(** X18.  A dataset with ten rows or more that lacks a required column
    makes [main] fail with the [KeyError] of the column selection: the
    trainer is the fresh one, nothing was trained, and no file was
    written or changed. *)
Theorem main_missing_column (w : World) df :
  fs w !! "sdn_dataset.csv" = Some (Csv df) →
  (10 ≤ len df)%nat →
  missing_columns df (feature_cols ++ [target_col]) ≠ [] →
  (∃ miss, miss ≠ [] ∧ (main w).1 = Raise (KeyError miss)) ∧
  self (main w).2 = init "sdn_dataset.csv" ∧
  fs (main w).2 = fs w.
Proof.
  intros Hfile Hlen Hmiss.
  unfold main, load_data, read_csv. run. rewrite Hfile. simpl.
  apply Nat.ltb_ge in Hlen. rewrite Hlen. unfold pipeline.
  match goal with |- context [(preprocess_data df ≫= ?f) ?w0] =>
    destruct (preprocess_data_key_error df w0 Hmiss) as (miss & Hne & Hprep);
    rewrite (bind_raise _ f _ _ _ Hprep) end.
  simpl. split; [by exists miss|done].
Qed.

(** ** The ranking of the features *)

Lemma insert_by_sorted v i sorted :
  StronglySorted (λ j k, (cell v j <= cell v k)%Q) sorted →
  StronglySorted (λ j k, (cell v j <= cell v k)%Q) (insert_by v i sorted).
Proof.
  induction 1 as [|j rest Hrest IH Hj]; simpl.
  - by repeat constructor.
  - destruct (Qle_bool (cell v j) (cell v i)) eqn:Hle.
    + apply Qle_bool_iff in Hle. constructor; [done|].
      by apply insert_by_Forall.
    + assert (cell v i <= cell v j)%Q as Hij.
      { apply Qlt_le_weak, Qnot_le_lt. intros Hc. apply Qle_bool_iff in Hc. congruence. }
      constructor; [by constructor|]. constructor; [done|].
      eapply Forall_impl; [exact Hj|]. simpl. intros k Hk. by eapply Qle_trans.
Qed.

Lemma insert_by_perm v i sorted : insert_by v i sorted ≡ₚ i :: sorted.
Proof.
  induction sorted as [|j rest IH]; simpl; [done|].
  case_match; [|done]. rewrite IH. apply Permutation_swap.
Qed.

Lemma argsort_sorted (v : list Q) :
  StronglySorted (λ j k, (cell v j <= cell v k)%Q) (argsort v) ∧
  argsort v ≡ₚ seq 0 (length v).
Proof.
  unfold argsort. generalize (seq 0 (length v)). intros todo.
  assert (∀ acc, StronglySorted (λ j k, (cell v j <= cell v k)%Q) acc →
            StronglySorted (λ j k, (cell v j <= cell v k)%Q)
              (foldl (λ acc i, insert_by v i acc) acc todo) ∧
            foldl (λ acc i, insert_by v i acc) acc todo ≡ₚ todo ++ acc) as Hgen.
  { induction todo as [|i todo IH]; intros acc Hacc; simpl; [done|].
    destruct (IH (insert_by v i acc)) as [Hs Hp]; [by apply insert_by_sorted|].
    split; [done|]. rewrite Hp, insert_by_perm. by rewrite Permutation_middle. }
  destruct (Hgen []) as [Hs Hp]; [constructor|]. by rewrite app_nil_r in Hp.
Qed.

Lemma reverse_sorted {A} (R : relation A) (l : list A) :
  StronglySorted R l → StronglySorted (flip R) (reverse l).
Proof.
  induction 1 as [|a l Hl IH Ha]; [constructor|].
  rewrite reverse_cons. apply StronglySorted_app_2; [|done|by repeat constructor].
  intros x1 x2 Hx1 Hx2. apply list_elem_of_singleton in Hx2 as ->.
  rewrite elem_of_reverse in Hx1. rewrite Forall_forall in Ha. unfold flip.
  by apply Ha.
Qed.

Lemma for_each_items_exact {A} (l : list A) (indices : list nat) :
  Forall (λ i, (i < length l)%nat) indices →
  ∀ acc (w : World), ∃ xs,
    for_each indices acc (λ acc i, x ← lift (item l i); mret (acc ++ [x])) w
      = (Ok (acc ++ xs), w) ∧
    Forall2 (λ i x, l !! i = Some x) indices xs.
Proof.
  induction 1 as [|i indices Hi _ IH]; intros acc w; simpl.
  - exists []. by rewrite app_nil_r.
  - destruct (lookup_lt_is_Some_2 l i Hi) as [a Ha].
    unfold item. run. rewrite Ha. simpl.
    destruct (IH (acc ++ [a]) w) as (xs & Hrun & Hxs). unfold item in Hrun. run.
    rewrite Hrun. exists (a :: xs). rewrite <- app_assoc. split; [done|].
    by constructor.
Qed.

(** X19.  The chart of a tree-based best model: [feature_importance.png]
    shows every feature exactly once, each bar under the name of its own
    column, in descending order of importance. *)
Theorem feature_importance_ranking (X : DataFrame) (w : World) m name :
  best_model (self w) = Some m →
  best_model_name (self w) = Some name →
  (name, estimator m) ∈ estimators →
  has_importances (estimator m) = true →
  (length (lib_importances (estimator m) (fitted m)) ≤ length (columns X))%nat →
  ∃ indices ticks heights,
    fs (feature_importance X w).2 !! "feature_importance.png" =
      Some (Png (BarChart "Feature Importance" "Feature" "Importance" ticks heights [])) ∧
    indices ≡ₚ seq 0 (length (lib_importances (estimator m) (fitted m))) ∧
    Forall2 (λ i tick, columns X !! i = Some tick) indices ticks ∧
    Forall2 (λ i h, lib_importances (estimator m) (fitted m) !! i = Some h)
      indices heights ∧
    StronglySorted (λ a b, (b <= a)%Q) heights.
Proof.
  intros Hm Hn Hin Hcap Hlen.
  assert (Htree : bool_decide (name ∈ ["Random Forest"; "Decision Tree"]) = true)
    by (by rewrite (tree_names _ _ Hin)).
  set (importances := lib_importances (estimator m) (fitted m)) in *.
  destruct (argsort_in_range importances) as [Hrange Hcount].
  destruct (argsort_sorted importances) as [Hsorted Hperm].
  set (indices := reverse (argsort importances)).
  assert (Hidx : Forall (λ i, (i < length importances)%nat) indices)
    by (by apply Forall_reverse).
  assert (Hidx' : Forall (λ i, (i < length (columns X))%nat) indices)
    by (eapply Forall_impl; [exact Hidx|]; simpl; intros; lia).
  assert (Hpairs : Forall (λ p : nat * nat, (p.2 < length (columns X))%nat ∧
                             (p.2 < length importances)%nat)
                     (zip (seq 1 (length indices)) indices)).
  { apply Forall_forall. intros [k i] Hk. apply elem_of_zip_r in Hk. simpl.
    rewrite Forall_forall in Hidx, Hidx'. split; auto. }
  pose proof (for_each_ranking (columns X) importances _ Hpairs) as Hloop.
  pose proof (for_each_items_exact importances indices Hidx []) as Hheights.
  pose proof (for_each_items_exact (columns X) indices Hidx' []) as Hticks.
  unfold feature_importance, feature_importances_. run. rewrite Hn. simpl.
  rewrite Htree. simpl. rewrite Hm, Hcap. simpl.
  fold importances. fold indices.
  match goal with |- context [for_each (zip _ indices) tt _ ?w1] =>
    destruct (Hloop w1) as (ranking & -> & Hrank) end.
  simpl.
  match goal with |- context [for_each indices [] _ ?w1] =>
    destruct (Hheights w1) as (heights & -> & Hh) end.
  simpl.
  match goal with |- context [for_each indices [] _ ?w1] =>
    destruct (Hticks w1) as (ticks & -> & Ht) end.
  simpl. exists indices, ticks, heights.
  split; [apply lookup_insert_eq|]. split.
  { unfold indices. by rewrite reverse_Permutation. }
  split; [done|]. split; [done|].
  assert (Hdesc : StronglySorted (λ j k, (cell importances k <= cell importances j)%Q)
                    indices) by (by apply reverse_sorted in Hsorted).
  clear -Hdesc Hh. revert heights Hh.
  induction Hdesc as [|i rest Hrest IH Hi]; intros heights Hh.
  - apply Forall2_nil_inv_l in Hh as ->. constructor.
  - apply Forall2_cons_inv_l in Hh as (h & hs & Hih & Hhs & ->).
    constructor; [by apply IH|].
    clear IH Hrest. revert hs Hhs. induction Hi as [|k rest Hk _ IH]; intros hs Hhs.
    + apply Forall2_nil_inv_l in Hhs as ->. constructor.
    + apply Forall2_cons_inv_l in Hhs as (h' & hs' & Hkh & Hhs' & ->).
      constructor; [|by apply IH].
      unfold cell in Hk. by rewrite (nth_lookup_Some _ _ _ _ Hih),
        (nth_lookup_Some _ _ _ _ Hkh) in Hk.
Qed.


End Properties.

(** * The claims on concrete runs *)

#[local] Existing Instance Example.library.

Lemma train_models_all_zero_witness :
  ∃ w', train_models Example.Xtr0 Example.Xte0 Example.ytr0 Example.yte0 Example.fresh =
          (Ok (zip estimators.*1 (Example.wrong <$> estimators.*2)), w') ∧
    best_model (self w') = None ∧
    best_model_name (self w') = None ∧
    best_accuracy (self w') = 0%Q ∧
    models (self w') = zip estimators.*1 (Example.wrong <$> estimators.*2) ∧
    (zip estimators.*1 (Example.wrong <$> estimators.*2)).*1 =
      ["Random Forest"; "K-Nearest Neighbors"; "Decision Tree"; "SVM"].
Proof.
  apply (train_models_all_zero Example.Xtr0 Example.Xte0 Example.ytr0 Example.yte0
           (Example.wrong <$> estimators.*2) Example.fresh);
    [reflexivity | reflexivity | reflexivity | |].
  - repeat (constructor; [repeat split; reflexivity|]). constructor.
  - repeat (constructor; [reflexivity|]). constructor.
Defined.

Lemma first_max_not_selected_at_zero_witness :
  ∃ forest,
    (Example.wrong <$> estimators.*2) !! 0%nat = Some forest ∧
    estimator (r_model forest) = RandomForestClassifier 100 42 ∧
    (∀ r, r ∈ Example.wrong <$> estimators.*2 →
          (r_accuracy r <= r_accuracy forest)%Q) ∧
    (train_models Example.Xtr0 Example.Xte0 Example.ytr0 Example.yte0 Example.fresh).1 =
      Ok (zip estimators.*1 (Example.wrong <$> estimators.*2)) ∧
    dict_get (models (self (train_models Example.Xtr0 Example.Xte0 Example.ytr0
                              Example.yte0 Example.fresh).2)) "Random Forest"
      = Some forest ∧
    best_model (self (train_models Example.Xtr0 Example.Xte0 Example.ytr0 Example.yte0
                        Example.fresh).2) = None ∧
    best_model (self (train_models Example.Xtr0 Example.Xte0 Example.ytr0 Example.yte0
                        Example.fresh).2) ≠ Some (r_model forest) ∧
    best_model_name (self (train_models Example.Xtr0 Example.Xte0 Example.ytr0
                             Example.yte0 Example.fresh).2) = None ∧
    (evaluate_models Example.yte0
       (train_models Example.Xtr0 Example.Xte0 Example.ytr0 Example.yte0
          Example.fresh).2).1 = Raise (AttributeError "best_model_name") ∧
    fs (save_model "sdn_best_model.pkl"
          (train_models Example.Xtr0 Example.Xte0 Example.ytr0 Example.yte0
             Example.fresh).2).2 = fs Example.fresh.
Proof.
  apply (first_max_not_selected_at_zero Example.Xtr0 Example.Xte0 Example.ytr0
           Example.yte0 (Example.wrong <$> estimators.*2) "sdn_dataset.csv"
           Example.fresh eq_refl).
  - repeat (constructor; [repeat split; reflexivity|]). constructor.
  - repeat (constructor; [reflexivity|]). constructor.
Defined.

Lemma save_load_roundtrip_witness :
  ∃ w', load_model "sdn_best_model.pkl"
          {| self := init "elsewhere.csv";
             fs := fs (save_model "sdn_best_model.pkl" Example.trained_world).2;
             stdout := [] |}
        = (Ok tt, w') ∧
    best_model_name (self w') = Some "Random Forest" ∧
    best_accuracy (self w') = best_accuracy (self Example.trained_world) ∧
    best_model (self w') = Some Example.forest ∧
    scaler (self w') = scaler (self Example.trained_world) ∧
    (∀ X, ((scaler_transform X ≫= model_predict Example.forest) w').1 =
          ((scaler_transform X ≫= model_predict Example.forest) Example.trained_world).1) ∧
    (∀ a b c d e f g,
       (predict_path a b c d e f g w').1 =
       (predict_path a b c d e f g Example.trained_world).1).
Proof.
  apply (save_load_roundtrip "sdn_best_model.pkl" Example.trained_world
           (init "elsewhere.csv") [] Example.forest "Random Forest");
    reflexivity.
Defined.

Lemma main_aborts_without_enough_data_witness :
  main (Example.on_disk Example.short) =
    (Ok tt, {| self := init "sdn_dataset.csv";
               fs := fs (Example.on_disk Example.short);
               stdout := stdout (Example.on_disk Example.short) ++ main_banner ++
                 load_log "sdn_dataset.csv"
                   (fs (Example.on_disk Example.short) !! "sdn_dataset.csv") ++
                 insufficient_lines |}) ∧
  fs (main (Example.on_disk Example.short)).2 !! "sdn_best_model.pkl" =
    fs (Example.on_disk Example.short) !! "sdn_best_model.pkl".
Proof.
  apply (main_aborts_without_enough_data (Example.on_disk Example.short)).
  intros df Hdf. unfold Example.on_disk, Example.world in Hdf. simpl in Hdf.
  rewrite lookup_singleton_eq in Hdf. injection Hdf as <-. vm_compute. lia.
Defined.

Lemma scaler_fitted_on_train_only_witness :
  StandardScaler_fit (rows (X_train Example.separable_parts)) =
    Ok (scaler (self Example.separable_run.2)) ∧
  StandardScaler_transform (scaler (self Example.separable_run.2))
    (rows (X_test Example.separable_parts)) = Ok (X_test_scaled Example.separable_parts).
Proof.
  destruct (scaler_fitted_on_train_only Example.separable Example.fresh
              Example.separable_run.2 Example.separable_parts)
    as (_ & Hfit & _ & Htest & _); [reflexivity|].
  split; [exact Hfit|exact Htest].
Defined.

Lemma preprocess_data_missing_column_witness :
  ∃ miss,
    preprocess_data Example.no_quality Example.fresh =
      (Raise (KeyError miss),
       {| self := self Example.fresh; fs := fs Example.fresh;
          stdout := stdout Example.fresh ++ [nl +:+ "Preprocessing data..."] |}) ∧
    miss ≠ [] ∧
    miss = match missing_columns Example.no_quality feature_cols with
           | [] => [target_col]
           | features => features
           end ∧
    (∀ c, c ∈ miss → c ∈ feature_cols ++ [target_col] ∧
                     has_column Example.no_quality c = false).
Proof.
  apply (preprocess_data_missing_column Example.no_quality Example.fresh).
  vm_compute. discriminate.
Defined.

(** C5, counterexample.  The table [Example.no_quality] lacks
    [path_quality]; preprocessing it raises the [KeyError] of the column
    lookup, where the preprocessing of the specification raises its
    schema error. *)
Lemma missing_column_raises_key_error :
  missing_columns Example.no_quality (feature_cols ++ [target_col]) = ["path_quality"] ∧
  (preprocess_data Example.no_quality Example.fresh).1 = Raise (KeyError ["path_quality"]) ∧
  (preprocess_data_spec Example.no_quality Example.fresh).1 =
    Raise (SchemaMismatch ["path_quality"]) ∧
  ¬ (∃ miss, (preprocess_data Example.no_quality Example.fresh).1 =
               Raise (SchemaMismatch miss)).
Proof.
  repeat split; try (vm_compute; reflexivity).
  intros [miss Hmiss]. by apply preprocess_data_no_schema_error in Hmiss.
Qed.



Lemma predict_path_spec_witness :
  predict_path 1 3 85 90 50 (5 # 100) 75 Example.fresh =
    (Ok None, {| self := self Example.fresh; fs := fs Example.fresh;
                 stdout := stdout Example.fresh ++ ["Error: No trained model available"] |}) ∧
  predict_path 1 3 85 90 50 (5 # 100) 75 Example.trained_world =
    (Ok (Some 1%Q), Example.trained_world).
Proof.
  split.
  - apply (proj1 (predict_path_spec 1 3 85 90 50 (5 # 100) 75 Example.fresh)). reflexivity.
  - rewrite (proj2 (predict_path_spec 1 3 85 90 50 (5 # 100) 75 Example.trained_world)
               Example.forest eq_refl).
    reflexivity.
Defined.


Lemma load_model_frame_witness :
  (load_model "sdn_best_model.pkl" Example.saved_world).1 = Ok tt ∧
  self (load_model "sdn_best_model.pkl" Example.saved_world).2 =
    {| dataset_path := "sdn_dataset.csv"; models := [];
       scaler := Example.unit_scaler; best_model := Some Example.forest;
       best_accuracy := 1; best_model_name := Some "Random Forest" |}.
Proof.
  destruct (load_model_frame "sdn_best_model.pkl" Example.saved_world)
    as (_ & _ & _ & Hload).
  apply (Hload (bundle (Example.holding Example.forest "Random Forest")
                  Example.forest "Random Forest")
           Example.forest Example.unit_scaler "Random Forest" 1%Q).
  - apply lookup_singleton_eq.
  - apply bundle_lookups.
  - apply bundle_lookups.
  - apply bundle_lookups.
  - apply bundle_lookups.
Defined.

(** * Further properties on concrete runs *)

Lemma not_an_artifact : "sdn_dataset.csv" ∉ artifacts.
Proof.
  intros Hin. unfold artifacts in Hin.
  repeat (apply elem_of_cons in Hin as [Hin|Hin]; [done|]).
  by apply elem_of_nil in Hin.
Defined.

Lemma train_models_frame_witness :
  (train_models [] [] [] [] Example.fresh).1 = Raise (ValueError "fit") ∧
  models (self (train_models [] [] [] [] Example.fresh).2) = models (self Example.fresh).
Proof.
  split; [reflexivity|].
  apply (proj2 (proj2 (proj2 (train_models_frame [] [] [] [] Example.fresh)))
           (ValueError "fit")).
  reflexivity.
Defined.

Lemma evaluate_models_frame_witness :
  fs (evaluate_models [] Example.fresh).2 !! "sdn_dataset.csv" =
    fs Example.fresh !! "sdn_dataset.csv".
Proof.
  apply (proj2 (evaluate_models_frame [] Example.fresh)).
  intros Hin. repeat (apply elem_of_cons in Hin as [Hin|Hin]; [done|]).
  by apply elem_of_nil in Hin.
Defined.

Lemma feature_importance_frame_witness :
  fs (feature_importance Example.feature_table Example.trained_world).2
    !! "sdn_dataset.csv" = fs Example.trained_world !! "sdn_dataset.csv".
Proof.
  apply (proj2 (feature_importance_frame Example.feature_table Example.trained_world)).
  done.
Defined.

Lemma save_model_frame_witness :
  fs (save_model "sdn_best_model.pkl" Example.trained_world).2 !! "sdn_dataset.csv" =
    fs Example.trained_world !! "sdn_dataset.csv" ∧
  save_model "sdn_best_model.pkl" Example.nameless_world =
    (Raise (AttributeError "best_model_name"), Example.nameless_world).
Proof.
  split.
  - apply (proj1 (proj2 (save_model_frame "sdn_best_model.pkl" Example.trained_world))).
    done.
  - apply (proj2 (proj2 (save_model_frame "sdn_best_model.pkl" Example.nameless_world))).
    + by exists Example.forest.
    + reflexivity.
Defined.

Lemma main_writes_only_artifacts_witness :
  fs (main (Example.on_disk Example.short)).2 !! "sdn_dataset.csv" =
    fs (Example.on_disk Example.short) !! "sdn_dataset.csv".
Proof.
  apply (main_writes_only_artifacts (Example.on_disk Example.short) "sdn_dataset.csv").
  apply not_an_artifact.
Defined.

Lemma all_right :
  Forall2 (trained Example.Xtr0 Example.Xte0 Example.ytr0 Example.yte1)
    estimators (Example.right <$> estimators.*2).
Proof. repeat (constructor; [repeat split; reflexivity|]). constructor. Defined.

Lemma train_models_twice_witness :
  best_model
    (self (train_models Example.Xtr0 Example.Xte0 Example.ytr0 Example.yte1
             (train_models Example.Xtr0 Example.Xte0 Example.ytr0 Example.yte1
                Example.fresh).2).2) =
  best_model
    (self (train_models Example.Xtr0 Example.Xte0 Example.ytr0 Example.yte1
             Example.fresh).2).
Proof.
  apply (train_models_twice Example.Xtr0 Example.Xte0 Example.ytr0 Example.yte1
           (Example.right <$> estimators.*2) Example.fresh all_right).
Defined.

Lemma train_models_selection_witness :
  (Forall (λ r, (r_accuracy r <= best_accuracy (self Example.fresh))%Q)
     (Example.right <$> estimators.*2) ∧
   best_model (self (train_models Example.Xtr0 Example.Xte0 Example.ytr0 Example.yte1
                       Example.fresh).2) = best_model (self Example.fresh) ∧
   best_model_name (self (train_models Example.Xtr0 Example.Xte0 Example.ytr0 Example.yte1
                            Example.fresh).2) = best_model_name (self Example.fresh) ∧
   best_accuracy (self (train_models Example.Xtr0 Example.Xte0 Example.ytr0 Example.yte1
                          Example.fresh).2) = best_accuracy (self Example.fresh)) ∨
  (∃ i name r,
     estimators.*1 !! i = Some name ∧ (Example.right <$> estimators.*2) !! i = Some r ∧
     best_model (self (train_models Example.Xtr0 Example.Xte0 Example.ytr0 Example.yte1
                         Example.fresh).2) = Some (r_model r) ∧
     best_model_name (self (train_models Example.Xtr0 Example.Xte0 Example.ytr0
                              Example.yte1 Example.fresh).2) = Some name ∧
     best_accuracy (self (train_models Example.Xtr0 Example.Xte0 Example.ytr0 Example.yte1
                            Example.fresh).2) = r_accuracy r ∧
     (best_accuracy (self Example.fresh) < r_accuracy r)%Q ∧
     (∀ j r', (j < i)%nat → (Example.right <$> estimators.*2) !! j = Some r' →
        (r_accuracy r' < r_accuracy r)%Q) ∧
     (∀ j r', (Example.right <$> estimators.*2) !! j = Some r' →
        (r_accuracy r' <= r_accuracy r)%Q)).
Proof.
  apply (train_models_selection Example.Xtr0 Example.Xte0 Example.ytr0 Example.yte1
           (Example.right <$> estimators.*2) Example.fresh all_right).
Defined.

Lemma train_models_registry_witness :
  models (self (train_models Example.Xtr0 Example.Xte0 Example.ytr0 Example.yte1
                  Example.fresh).2) =
    zip estimators.*1 (Example.right <$> estimators.*2) ∧
  (zip estimators.*1 (Example.right <$> estimators.*2)).*1 =
    ["Random Forest"; "K-Nearest Neighbors"; "Decision Tree"; "SVM"] ∧
  Forall (λ e, (e.1, estimator (r_model e.2)) ∈ estimators ∧
               length (r_predictions e.2) = length Example.yte1 ∧
               (0 <= r_accuracy e.2)%Q ∧ (r_accuracy e.2 <= 1)%Q)
    (zip estimators.*1 (Example.right <$> estimators.*2)).
Proof.
  apply (train_models_registry Example.Xtr0 Example.Xte0 Example.ytr0 Example.yte1
           (zip estimators.*1 (Example.right <$> estimators.*2)) Example.fresh).
  rewrite (train_models_trained _ _ _ _ _ Example.fresh all_right). reflexivity.
Defined.

Lemma evaluate_models_fails_after_chart_witness :
  (evaluate_models [] Example.fresh).1 = Raise (AttributeError "best_model_name") ∧
  fs (evaluate_models [] Example.fresh).2 =
    <["model_comparison.png" := Png (comparison_chart (self Example.fresh))]>
      (fs Example.fresh).
Proof.
  apply (evaluate_models_fails_after_chart [] Example.fresh). left. reflexivity.
Defined.

Lemma evaluate_after_training_witness :
  ∃ chart matrix,
    (evaluate_models Example.yte1
       (train_models Example.Xtr0 Example.Xte0 Example.ytr0 Example.yte1
          Example.fresh).2).1 = Ok tt ∧
    fs (evaluate_models Example.yte1
          (train_models Example.Xtr0 Example.Xte0 Example.ytr0 Example.yte1
             Example.fresh).2).2 =
      <["confusion_matrix.png" := Png matrix]>
        (<["model_comparison.png" := Png chart]> (fs Example.fresh)).
Proof.
  apply (evaluate_after_training Example.Xtr0 Example.Xte0 Example.ytr0 Example.yte1
           (Example.right <$> estimators.*2) Example.fresh
           (Example.right (RandomForestClassifier 100 42)) eq_refl all_right).
  - by left.
  - reflexivity.
Defined.

Lemma load_model_partial_witness :
  load_model "sdn_best_model.pkl" Example.partial_world =
    (Raise (KeyError ["scaler"]),
     {| self := with_best_model (self Example.partial_world) Example.forest;
        fs := fs Example.partial_world; stdout := stdout Example.partial_world |}).
Proof.
  apply (load_model_partial "sdn_best_model.pkl" Example.partial_world
           Example.model_only Example.forest).
  - apply lookup_singleton_eq.
  - apply lookup_singleton_eq.
  - by apply lookup_singleton_ne.
Defined.

Lemma load_save_roundtrip_witness :
  (save_model "sdn_best_model.pkl"
     (load_model "sdn_best_model.pkl" Example.saved_world).2).1 = Ok tt ∧
  fs (save_model "sdn_best_model.pkl"
        (load_model "sdn_best_model.pkl" Example.saved_world).2).2 =
    fs Example.saved_world.
Proof.
  apply (load_save_roundtrip "sdn_best_model.pkl" Example.saved_world
           (bundle (Example.holding Example.forest "Random Forest")
              Example.forest "Random Forest")
           Example.forest Example.unit_scaler "Random Forest" 1%Q).
  - apply lookup_singleton_eq.
  - unfold bundle. rewrite !dom_insert_L, dom_empty_L.
    apply set_eq. intros k.
    rewrite !elem_of_union, !elem_of_singleton, elem_of_empty. tauto.
  - apply bundle_lookups.
  - apply bundle_lookups.
  - apply bundle_lookups.
  - apply bundle_lookups.
Defined.

Lemma predict_path_needs_fitted_scaler_witness :
  predict_path 1 3 85 90 50 (5 # 100) 75
    (train_models Example.Xtr0 Example.Xte0 Example.ytr0 Example.yte1 Example.fresh).2 =
  (Raise NotFittedError,
   (train_models Example.Xtr0 Example.Xte0 Example.ytr0 Example.yte1 Example.fresh).2).
Proof.
  apply (predict_path_needs_fitted_scaler Example.Xtr0 Example.Xte0 Example.ytr0
           Example.yte1 (Example.right <$> estimators.*2) "sdn_dataset.csv"
           (Example.right (RandomForestClassifier 100 42))
           1 3 85 90 50 (5 # 100) 75 Example.fresh eq_refl all_right).
  - by left.
  - reflexivity.
Defined.

Lemma preprocess_data_shapes_witness :
  columns (X_train Example.separable_parts) = feature_cols ∧
  rows (X_test Example.separable_parts) ≠ [] ∧
  length (X_test_scaled Example.separable_parts) =
    length (rows (X_test Example.separable_parts)).
Proof.
  destruct (preprocess_data_shapes Example.separable Example.fresh
              Example.separable_run.2 Example.separable_parts)
    as (Hcols & _ & _ & Htest & _ & Hlen & _); [reflexivity|].
  by repeat split.
Defined.

Lemma main_completed_witness :
  ∃ m name,
    best_model (self Example.separable_main.2) = Some m ∧
    best_model_name (self Example.separable_main.2) = Some name ∧
    (name, estimator m) ∈ estimators ∧
    (0 < best_accuracy (self Example.separable_main.2))%Q ∧
    fs Example.separable_main.2 !! "sdn_best_model.pkl" =
      Some (Pickle (bundle (self Example.separable_main.2) m name)) ∧
    (∃ fig, fs Example.separable_main.2 !! "model_comparison.png" = Some (Png fig)) ∧
    (∃ fig, fs Example.separable_main.2 !! "confusion_matrix.png" = Some (Png fig)) ∧
    (has_importances (estimator m) = true →
     ∃ fig, fs Example.separable_main.2 !! "feature_importance.png" = Some (Png fig)).
Proof.
  assert (Example.separable_main.1 = Ok tt) as Hok by (vm_compute; reflexivity).
  apply (main_completed (Example.on_disk Example.separable) Example.separable_main.2
           Example.separable).
  - apply lookup_singleton_eq.
  - vm_compute. lia.
  - rewrite <- Hok. apply surjective_pairing.
Defined.

Lemma main_missing_column_witness :
  (∃ miss, miss ≠ [] ∧
     (main (Example.on_disk Example.no_quality)).1 = Raise (KeyError miss)) ∧
  self (main (Example.on_disk Example.no_quality)).2 = init "sdn_dataset.csv" ∧
  fs (main (Example.on_disk Example.no_quality)).2 =
    fs (Example.on_disk Example.no_quality).
Proof.
  apply (main_missing_column (Example.on_disk Example.no_quality) Example.no_quality).
  - apply lookup_singleton_eq.
  - vm_compute. lia.
  - vm_compute. discriminate.
Defined.

Lemma feature_importance_ranking_witness :
  ∃ indices ticks heights,
    fs (feature_importance Example.feature_table Example.trained_world).2
      !! "feature_importance.png" =
      Some (Png (BarChart "Feature Importance" "Feature" "Importance" ticks heights [])) ∧
    indices ≡ₚ seq 0 (length (lib_importances (estimator Example.forest)
                                (fitted Example.forest))) ∧
    Forall2 (λ i tick, columns Example.feature_table !! i = Some tick) indices ticks ∧
    Forall2 (λ i h, lib_importances (estimator Example.forest) (fitted Example.forest)
                      !! i = Some h) indices heights ∧
    StronglySorted (λ a b, (b <= a)%Q) heights.
Proof.
  apply (feature_importance_ranking Example.feature_table Example.trained_world
           Example.forest "Random Forest" eq_refl eq_refl
           ltac:(by left) eq_refl ltac:(vm_compute; lia)).
Defined.
